(** * Incremental clone aggregator of [track_clones.py]

    A shallow embedding of the clone tracker: the reconciliation of a batch of
    traffic reports against the persisted cumulative state
    ([calculate_cumulative_totals]), the summary that is written to
    [clones_summary.json] ([update_clone_summary]), the append-only CSV log
    ([update_csv]) and the driver ([main]).  The star tracker of
    [track_stars.py] is embedded in the module [Stars].

    Python values are modelled as follows.
    - [int] is [Z] (unbounded).
    - [str] is [string]; [<=] on [str] is the lexicographic order on code
      points, which on UTF-8 encoded text is the bytewise order [String.leb].
    - [dict] is an association list in insertion order whose keys are
      pairwise distinct; [d[k] = v] overwrites in place or appends.
    - An exception is a value of [exn], and code that may raise returns a
      [result]. *)

From Stdlib Require Import List ZArith String Ascii Bool Lia.
From Stdlib Require Import Permutation Sorted.
Import ListNotations.

Local Open Scope string_scope.
Local Open Scope list_scope.
Local Open Scope Z_scope.

Set Implicit Arguments.

(* ===================================================================== *)
(** ** Python dictionaries *)
(* ===================================================================== *)

Definition dict (V : Type) : Type := list (string * V).

Module Dict.
Section Ops.
Variable V : Type.

(** [d.get(k)] *)
Fixpoint get (k : string) (d : dict V) : option V :=
  match d with
  | [] => None
  | (k', v) :: rest => if String.eqb k k' then Some v else get k rest
  end.

(** [k in d] *)
Definition contains (k : string) (d : dict V) : bool :=
  match get k d with Some _ => true | None => false end.

(** [d[k] = v]: an existing key keeps its position, a new key goes last. *)
Fixpoint set (k : string) (v : V) (d : dict V) : dict V :=
  match d with
  | [] => [(k, v)]
  | (k', v') :: rest =>
      if String.eqb k k' then (k', v) :: rest else (k', v') :: set k v rest
  end.

Definition items (d : dict V) : list (string * V) := d.
Definition keys (d : dict V) : list string := map fst d.
Definition values (d : dict V) : list V := map snd d.
Definition len (d : dict V) : nat := List.length d.

(** The keys of a dictionary are pairwise distinct. *)
Definition wf (d : dict V) : Prop := NoDup (keys d).

(** [d1 == d2] on dictionaries ignores the insertion order. *)
Definition equiv (d1 d2 : dict V) : Prop := forall k, get k d1 = get k d2.
End Ops.
End Dict.

(* ===================================================================== *)
(** ** Exceptions *)
(* ===================================================================== *)

Inductive exn : Type :=
| KeyError (key : string)
| ValueError (msg : string)
| ApiError (msg : string).

Inductive result (A : Type) : Type :=
| Ok (a : A)
| Raise (e : exn).

Arguments Ok {A} a.
Arguments Raise {A} e.

Definition bind {A B : Type} (m : result A) (f : A -> result B) : result B :=
  match m with
  | Ok a => f a
  | Raise e => Raise e
  end.

Notation "x <- m ;; k" := (bind m (fun x => k))
  (at level 61, m at next level, right associativity).
Notation "' p <- m ;; k" := (bind m (fun x => let p := x in k))
  (at level 61, p pattern, m at next level, right associativity).

(** [d[k]] as an expression raises [KeyError] on a missing key. *)
Definition getitem {V : Type} (k : string) (d : dict V) : result V :=
  match Dict.get k d with
  | Some v => Ok v
  | None => Raise (KeyError k)
  end.

(** A [for] loop whose body may raise. *)
Fixpoint for_each {A S : Type} (body : A -> S -> result S)
    (l : list A) (s : S) : result S :=
  match l with
  | [] => Ok s
  | x :: rest => s' <- body x s ;; for_each body rest s'
  end.

(** The same loop when the body reads the clock: [i] counts the
    iterations. *)
Fixpoint for_each_from {A S : Type} (body : nat -> A -> S -> result S)
    (i : nat) (l : list A) (s : S) : result S :=
  match l with
  | [] => Ok s
  | x :: rest => s' <- body i x s ;; for_each_from body (Datatypes.S i) rest s'
  end.

(* ===================================================================== *)
(** ** Data model *)
(* ===================================================================== *)

(** One day of traffic: [{"count": .., "uniques": ..}]. *)
Record DayStats : Type := mkDayStats {
  count : Z;
  uniques : Z
}.

(** One element of [clone_data], built by [get_clone_stats]. *)
Record RepoData : Type := mkRepoData {
  timestamp : string;
  date : string;
  repo_name : string;
  period_clones : Z;
  period_unique : Z;
  daily_breakdown : dict DayStats
}.

(** One value of [cumulative_totals].  The key ["last_updated"] is missing
    between the creation of the entry and the end of the loop body. *)
Record RepoTotals : Type := mkRepoTotals {
  total_clones : Z;
  total_unique : Z;
  first_tracked : string;
  last_updated : option string
}.

Definition set_total_clones (t : RepoTotals) (v : Z) : RepoTotals :=
  mkRepoTotals v (total_unique t) (first_tracked t) (last_updated t).

Definition set_total_unique (t : RepoTotals) (v : Z) : RepoTotals :=
  mkRepoTotals (total_clones t) v (first_tracked t) (last_updated t).

Definition set_last_updated (t : RepoTotals) (v : string) : RepoTotals :=
  mkRepoTotals (total_clones t) (total_unique t) (first_tracked t) (Some v).

(** The value returned by [load_historical_data]. *)
Record Historical : Type := mkHistorical {
  cumulative_totals : dict RepoTotals;
  daily_records : dict (dict DayStats);
  last_run : option string
}.

(** The pair [(cumulative, daily_records)] that the reconciliation loop
    updates and finally returns. *)
Definition State : Type := (dict RepoTotals * dict (dict DayStats))%type.

(* ===================================================================== *)
(** ** [calculate_cumulative_totals] *)
(* ===================================================================== *)

(** [a >= b] on [str]. *)
Definition str_ge (a b : string) : bool := String.leb b a.

(** Lines 155-158: what is stored in the ledger for a day of the
    breakdown. *)
Definition snapshot (day_stats : DayStats) : DayStats :=
  mkDayStats (count day_stats) (uniques day_stats).

(** Body of the inner loop, lines 152-163: one [(day_str, day_stats)] of the
    breakdown of [repo_name]. *)
Definition process_day (repo_name : string) (entry : string * DayStats)
    (st : State) : result State :=
  let '(day_str, day_stats) := entry in
  let '(cumulative, daily_records) := st in
  ledger <- getitem repo_name daily_records ;;
  if Dict.contains day_str ledger then Ok (cumulative, daily_records)
  else
    let daily_records :=
      Dict.set repo_name (Dict.set day_str (snapshot day_stats) ledger)
        daily_records in
    totals <- getitem repo_name cumulative ;;
    let cumulative :=
      Dict.set repo_name
        (set_total_clones totals (total_clones totals + count day_stats))
        cumulative in
    Ok (cumulative, daily_records).

(** Body of the outer loop, lines 138-179.  [cutoff_date] is the value of
    [(datetime.now() - timedelta(days=30)).strftime("%Y-%m-%d")] read in this
    iteration. *)
Definition process_repo (cutoff_date : string) (repo : RepoData)
    (st : State) : result State :=
  let '(cumulative, daily_records) := st in
  let name := repo_name repo in
  let cumulative :=
    if Dict.contains name cumulative then cumulative
    else Dict.set name (mkRepoTotals 0 0 (timestamp repo) None) cumulative in
  let daily_records :=
    if Dict.contains name daily_records then daily_records
    else Dict.set name [] daily_records in
  '(cumulative, daily_records) <-
    for_each (process_day name) (Dict.items (daily_breakdown repo))
      (cumulative, daily_records) ;;
  ledger <- getitem name daily_records ;;
  let daily_records :=
    Dict.set name
      (filter (fun '(day, _) => str_ge day cutoff_date) (Dict.items ledger))
      daily_records in
  totals <- getitem name cumulative ;;
  let cumulative :=
    Dict.set name
      (set_total_unique totals (Z.max (total_unique totals) (period_unique repo)))
      cumulative in
  totals <- getitem name cumulative ;;
  let cumulative :=
    Dict.set name (set_last_updated totals (timestamp repo)) cumulative in
  Ok (cumulative, daily_records).

(** [calculate_cumulative_totals(clone_data, historical_data, today)].  The
    clock is read once per repository: [clock i] is the cutoff date seen by
    the [i]-th iteration.  The two [.copy()] calls are shallow, so the loop
    also mutates the inner dictionaries of [historical_data]; the caller
    drops [historical_data] after the call, and the returned pair is what is
    modelled here.  [today] is not used by the source. *)
Definition calculate_cumulative_totals (clock : nat -> string)
    (clone_data : list RepoData) (historical_data : Historical)
    (today : string) : result State :=
  let cumulative := cumulative_totals historical_data in
  let daily_records := daily_records historical_data in
  for_each_from (fun i => process_repo (clock i)) 0 clone_data
    (cumulative, daily_records).

(* ===================================================================== *)
(** ** [update_clone_summary] *)
(* ===================================================================== *)

Section Sorting.
Variable A : Type.
Variable key : A -> Z.

(** Places [x] in a list that is already in descending key order, in front
    of the first element whose key is not larger than the key of [x]. *)
Fixpoint insert_desc (x : A) (l : list A) : list A :=
  match l with
  | [] => [x]
  | y :: rest =>
      if key x <? key y then y :: insert_desc x rest else x :: y :: rest
  end.

(** [sorted(l, key=key, reverse=True)]: descending and stable. *)
Definition sorted_reverse (l : list A) : list A :=
  fold_right insert_desc [] l.
End Sorting.

(** [sum(...)] over integers. *)
Definition sum (l : list Z) : Z := fold_left Z.add l 0.

(** Entry of [cumulative_stats.top_repositories]. *)
Record TopCumulative : Type := mkTopCumulative {
  tc_name : string;
  tc_total_clones : Z;
  tc_total_unique : Z
}.

(** Entry of [period_stats.top_repositories]. *)
Record TopPeriod : Type := mkTopPeriod {
  tp_name : string;
  tp_period_clones : Z;
  tp_period_unique : Z
}.

Record PeriodStats : Type := mkPeriodStats {
  ps_description : string;
  ps_total_clones : Z;
  ps_total_unique_clones : Z;
  ps_repositories_tracked : Z;
  ps_repositories_with_clones : Z;
  ps_top_repositories : list TopPeriod
}.

Record CumulativeStats : Type := mkCumulativeStats {
  cs_description : string;
  cs_total_clones : Z;
  cs_total_unique_clones : Z;
  cs_repositories_tracked : Z;
  cs_repositories_with_clones : Z;
  cs_top_repositories : list TopCumulative
}.

(** The object dumped to [clones_summary.json]. *)
Record Summary : Type := mkSummary {
  s_last_updated : string;
  s_last_run_date : string;
  s_period_stats : PeriodStats;
  s_cumulative_stats : CumulativeStats;
  s_cumulative_totals : dict RepoTotals;
  s_daily_records : dict (dict DayStats)
}.

(** Lines 199-203: the entry of one item of [cumulative_totals]. *)
Definition cumulative_entry (item : string * RepoTotals) : TopCumulative :=
  let '(name, data) := item in
  mkTopCumulative name (total_clones data) (total_unique data).

(** Lines 213-217: the entry of one report. *)
Definition period_entry (r : RepoData) : TopPeriod :=
  mkTopPeriod (repo_name r) (period_clones r) (period_unique r).

(** Lines 197-208. *)
Definition top_clones_cumulative (cumulative_totals : dict RepoTotals)
    : list TopCumulative :=
  firstn 10
    (sorted_reverse tc_total_clones
       (map cumulative_entry (Dict.items cumulative_totals))).

(** Lines 211-222. *)
Definition top_clones_period (clone_data : list RepoData) : list TopPeriod :=
  firstn 10 (sorted_reverse tp_period_clones (map period_entry clone_data)).

(** Lines 188-249: the summary object. *)
Definition build_summary (clone_data : list RepoData) (timestamp today : string)
    (cumulative_totals : dict RepoTotals)
    (daily_records : dict (dict DayStats)) : Summary :=
  let period_total_clones := sum (map period_clones clone_data) in
  let period_total_unique := sum (map period_unique clone_data) in
  let overall_total_clones :=
    sum (map total_clones (Dict.values cumulative_totals)) in
  let overall_total_unique :=
    sum (map total_unique (Dict.values cumulative_totals)) in
  mkSummary timestamp today
    (mkPeriodStats "Clone statistics for the last 14 days"
       period_total_clones period_total_unique
       (Z.of_nat (List.length clone_data))
       (Z.of_nat
          (List.length (filter (fun r => 0 <? period_clones r) clone_data)))
       (top_clones_period clone_data))
    (mkCumulativeStats
       "All-time cumulative clone statistics (since tracking began)"
       overall_total_clones overall_total_unique
       (Z.of_nat (Dict.len cumulative_totals))
       (Z.of_nat
          (List.length
             (filter (fun r => 0 <? total_clones r)
                (Dict.values cumulative_totals))))
       (top_clones_cumulative cumulative_totals))
    cumulative_totals daily_records.

(* ===================================================================== *)
(** ** Files under [DATA_DIR] *)
(* ===================================================================== *)

(** A row of [clone_data.csv]. *)
Record CsvRow : Type := mkCsvRow {
  row_timestamp : string;
  row_date : string;
  row_repo_name : string;
  row_period_clones : Z;
  row_period_unique : Z
}.

Inductive CsvLine : Type :=
| CsvHeader (fieldnames : list string)
| CsvRecord (row : CsvRow).

(** Contents of [clones_summary.json]: text that [json.load] rejects, or the
    object that [json.dump] wrote.  A file with other JSON in it (an entry
    that lacks a field, a value of another type) is outside the model. *)
Inductive SummaryFile : Type :=
| Unreadable
| Stored (s : Summary).

(** The two files; [None] is a file that does not exist. *)
Record Files : Type := mkFiles {
  clone_data_csv : option (list CsvLine);
  clones_summary_json : option SummaryFile
}.

(** [load_historical_data()]. *)
Definition load_historical_data (fs : Files) : Historical :=
  match clones_summary_json fs with
  | Some (Stored data) =>
      mkHistorical (s_cumulative_totals data) (s_daily_records data)
        (Some (s_last_updated data))
  | Some Unreadable => mkHistorical [] [] None
  | None => mkHistorical [] [] None
  end.

Definition fieldnames : list string :=
  ["timestamp"; "date"; "repo_name"; "period_clones"; "period_unique"].

(** [update_csv(clone_data)]: append, with a header if the file is new. *)
Definition update_csv (clone_data : list RepoData) (fs : Files) : Files :=
  let rows :=
    map (fun data =>
           CsvRecord (mkCsvRow (timestamp data) (date data) (repo_name data)
                        (period_clones data) (period_unique data)))
        clone_data in
  let contents :=
    match clone_data_csv fs with
    | Some old => old ++ rows
    | None => CsvHeader fieldnames :: rows
    end in
  mkFiles (Some contents) (clones_summary_json fs).

(** [update_clone_summary(...)]: the summary file is overwritten. *)
Definition update_clone_summary (clone_data : list RepoData)
    (timestamp today : string) (cumulative_totals : dict RepoTotals)
    (daily_records : dict (dict DayStats)) (fs : Files) : Files :=
  mkFiles (clone_data_csv fs)
    (Some (Stored (build_summary clone_data timestamp today
                     cumulative_totals daily_records))).

(* ===================================================================== *)
(** ** [get_clone_stats] *)
(* ===================================================================== *)

(** One element of [clones.clones]; [day_timestamp] is the text
    [day_data.timestamp.strftime("%Y-%m-%d")]. *)
Record DayData : Type := mkDayData {
  day_timestamp : string;
  day_count : Z;
  day_uniques : Z
}.

(** The answer of [repo.get_clones_traffic()]. *)
Record Clones : Type := mkClones {
  clones_count : Z;
  clones_uniques : Z;
  clones_days : list DayData
}.

(** A repository of the listing, with the outcome of its traffic call. *)
Record Repository : Type := mkRepository {
  repository_name : string;
  get_clones_traffic : result Clones
}.

(** What the process reads from its environment, the provider and the
    clock. *)
Record Environment : Type := mkEnvironment {
  GITHUB_TOKEN : option string;
  GITHUB_USERNAME : option string;
  get_user_repos : string -> result (list Repository);
  now_timestamp : string;
  now_today : string
}.

(** Truth value of [os.environ.get(..)]: [None] and [""] are false. *)
Definition truthy (v : option string) : bool :=
  match v with
  | Some s => negb (String.eqb s "")
  | None => false
  end.

(** Lines 74-80: the daily breakdown of one answer. *)
Definition daily_clones_of (clones : Clones) : dict DayStats :=
  fold_left
    (fun daily_clones day_data =>
       Dict.set (day_timestamp day_data)
         (mkDayStats (day_count day_data) (day_uniques day_data)) daily_clones)
    (clones_days clones) [].

(** Lines 68-101: one repository of the listing; a failed call is skipped. *)
Definition fetch_repo (timestamp today : string) (clone_data : list RepoData)
    (repo : Repository) : list RepoData :=
  match get_clones_traffic repo with
  | Ok clones =>
      clone_data ++
      [mkRepoData timestamp today (repository_name repo) (clones_count clones)
         (clones_uniques clones) (daily_clones_of clones)]
  | Raise _ => clone_data
  end.

(** [get_clone_stats()]; the printed tallies are not part of the result. *)
Definition get_clone_stats (env : Environment)
    : result (list RepoData * string * string) :=
  if negb (truthy (GITHUB_TOKEN env)) || negb (truthy (GITHUB_USERNAME env))
  then Raise (ValueError "GITHUB_TOKEN and GITHUB_USERNAME must be set")
  else
    match GITHUB_USERNAME env with
    | None => Raise (ValueError "GITHUB_TOKEN and GITHUB_USERNAME must be set")
    | Some username =>
        repos <- get_user_repos env username ;;
        let timestamp := now_timestamp env in
        let today := now_today env in
        Ok (fold_left (fetch_repo timestamp today) repos [], timestamp, today)
    end.

(* ===================================================================== *)
(** ** [main] *)
(* ===================================================================== *)

(** The lines that [main] itself prints. *)
Inductive Line : Type :=
| LoadedHistorical (repositories : nat)
| LastRun (when : string)
| CompletedSuccessfully
| NoCloneDataWarning
| CheckErrorsWarning
| FatalError (e : exn).

(** [main()]: the files afterwards, the lines printed by [main], and whether
    the run ends normally or with the exception that is raised again. *)
Definition main (env : Environment) (clock : nat -> string) (fs : Files)
    : Files * list Line * result unit :=
  let historical_data := load_historical_data fs in
  let out :=
    LoadedHistorical (Dict.len (cumulative_totals historical_data)) ::
    match last_run historical_data with
    | Some s => if String.eqb s "" then [] else [LastRun s]
    | None => []
    end in
  match get_clone_stats env with
  | Raise e => (fs, out ++ [FatalError e], Raise e)
  | Ok (clone_data, timestamp, today) =>
      match clone_data with
      | [] => (fs, out ++ [NoCloneDataWarning; CheckErrorsWarning], Ok tt)
      | _ :: _ =>
          let fs := update_csv clone_data fs in
          match
            calculate_cumulative_totals clock clone_data historical_data today
          with
          | Raise e => (fs, out ++ [FatalError e], Raise e)
          | Ok (cumulative_totals, daily_records) =>
              (update_clone_summary clone_data timestamp today
                 cumulative_totals daily_records fs,
               out ++ [CompletedSuccessfully], Ok tt)
          end
      end
  end.

(* ===================================================================== *)
(** ** The loop as a function on states *)
(* ===================================================================== *)

(** [total_clones] of a repository in a state, [0] when it is not tracked. *)
Definition clones_total (name : string) (st : State) : Z :=
  match Dict.get name (fst st) with
  | Some t => total_clones t
  | None => 0
  end.

(** [total_unique] of a repository in a state, [0] when it is not tracked. *)
Definition unique_total (name : string) (st : State) : Z :=
  match Dict.get name (fst st) with
  | Some t => total_unique t
  | None => 0
  end.

(** The ledger of a repository in a state, empty when it has none. *)
Definition ledger_of (name : string) (st : State) : dict DayStats :=
  match Dict.get name (snd st) with
  | Some ledger => ledger
  | None => []
  end.

(** The effect of the inner loop on the ledger and the running total of the
    repository it works on. *)
Fixpoint add_days (entries : list (string * DayStats)) (ledger : dict DayStats)
    (total : Z) : dict DayStats * Z :=
  match entries with
  | [] => (ledger, total)
  | (day_str, day_stats) :: rest =>
      if Dict.contains day_str ledger then add_days rest ledger total
      else add_days rest (Dict.set day_str (snapshot day_stats) ledger)
             (total + count day_stats)
  end.

(** The effect of one iteration of the outer loop, as two assignments. *)
Definition repo_step (cutoff_date : string) (repo : RepoData) (st : State)
    : State :=
  let name := repo_name repo in
  let t0 :=
    match Dict.get name (fst st) with
    | Some t => t
    | None => mkRepoTotals 0 0 (timestamp repo) None
    end in
  let added :=
    add_days (daily_breakdown repo) (ledger_of name st) (total_clones t0) in
  (Dict.set name
     (mkRepoTotals (snd added) (Z.max (total_unique t0) (period_unique repo))
        (first_tracked t0) (Some (timestamp repo)))
     (fst st),
   Dict.set name
     (filter (fun '(day, _) => str_ge day cutoff_date) (fst added))
     (snd st)).

(** The effect of the whole loop, started at iteration [i]. *)
Fixpoint reconcile_from (clock : nat -> string) (i : nat)
    (clone_data : list RepoData) (st : State) : State :=
  match clone_data with
  | [] => st
  | repo :: rest =>
      reconcile_from clock (S i) rest (repo_step (clock i) repo st)
  end.

(* ===================================================================== *)
(** ** Cycles *)
(* ===================================================================== *)

(** A cycle: the clock of the run, the batch it fetched and its [today]. *)
Record Cycle : Type := mkCycle {
  cycle_clock : nat -> string;
  cycle_batch : list RepoData;
  cycle_today : string
}.

(** One cycle on the persisted pair, and a sequence of cycles. *)
Definition run_cycle (c : Cycle) (st : State) : result State :=
  calculate_cumulative_totals (cycle_clock c) (cycle_batch c)
    (mkHistorical (fst st) (snd st) None) (cycle_today c).

Definition run_cycles (cycles : list Cycle) (st : State) : result State :=
  for_each run_cycle cycles st.

(** A sequence of cycles as a function on the persisted pair. *)
Definition reconcile_cycles (cycles : list Cycle) (st : State) : State :=
  fold_left
    (fun st c => reconcile_from (cycle_clock c) 0 (cycle_batch c) st)
    cycles st.

(** The reports of a sequence of cycles, in the order they are processed. *)
Definition reports_of (cycles : list Cycle) : list RepoData :=
  List.concat (map cycle_batch cycles).

(* ===================================================================== *)
(** ** Notions used in the statements *)
(* ===================================================================== *)

(** The counts of the entries of a breakdown whose day is not yet in the
    ledger. *)
Definition fresh_counts (entries : list (string * DayStats))
    (ledger : dict DayStats) : list Z :=
  map (fun e => count (snd e))
    (filter (fun '(day, _) => negb (Dict.contains day ledger)) entries).

(** A breakdown without its entry for [day]. *)
Definition drop_day (day : string) (entries : list (string * DayStats))
    : list (string * DayStats) :=
  filter (fun '(d, _) => negb (String.eqb d day)) entries.

(** A report without its entry for [day], when it is a report of [name]. *)
Definition without_date (name day : string) (repo : RepoData) : RepoData :=
  if String.eqb (repo_name repo) name then
    mkRepoData (timestamp repo) (date repo) (repo_name repo)
      (period_clones repo) (period_unique repo)
      (drop_day day (daily_breakdown repo))
  else repo.

Definition cycle_without_date (name day : string) (c : Cycle) : Cycle :=
  mkCycle (cycle_clock c) (map (without_date name day) (cycle_batch c))
    (cycle_today c).

(** The entry for [day] in the first report of [name] that has one. *)
Fixpoint first_reported (name day : string) (reports : list RepoData)
    : option DayStats :=
  match reports with
  | [] => None
  | repo :: rest =>
      if String.eqb (repo_name repo) name then
        match Dict.get day (daily_breakdown repo) with
        | Some s => Some s
        | None => first_reported name day rest
        end
      else first_reported name day rest
  end.

(** The count that a breakdown reports for [day], [0] when it has none. *)
Definition reported_count (day : string) (entries : dict DayStats) : Z :=
  match Dict.get day entries with
  | Some s => count s
  | None => 0
  end.

(** What [day] adds to the total of [name] over the reports: the count of
    its first report, unless the ledger had the day from the start. *)
Definition contribution (name day : string) (reports : list RepoData)
    (st : State) : Z :=
  if Dict.contains day (ledger_of name st) then 0
  else
    match first_reported name day reports with
    | Some s => count s
    | None => 0
    end.

(** Two ledgers with the same entries for every day other than [day]. *)
Definition agree_off (day : string) (l1 l2 : dict DayStats) : Prop :=
  forall k, k <> day -> Dict.get k l1 = Dict.get k l2.

(** Two reports that differ at most in the order of their daily entries. *)
Definition same_days (r1 r2 : RepoData) : Prop :=
  timestamp r1 = timestamp r2 /\ date r1 = date r2 /\
  repo_name r1 = repo_name r2 /\ period_clones r1 = period_clones r2 /\
  period_unique r1 = period_unique r2 /\
  Permutation (daily_breakdown r1) (daily_breakdown r2).

(** [==] on the values of [daily_records], and on states. *)
Definition ledgers_eq (o1 o2 : option (dict DayStats)) : Prop :=
  match o1, o2 with
  | Some l1, Some l2 => Dict.equiv l1 l2
  | None, None => True
  | _, _ => False
  end.

Definition state_eq (s1 s2 : State) : Prop :=
  Dict.equiv (fst s1) (fst s2) /\
  forall name, ledgers_eq (Dict.get name (snd s1)) (Dict.get name (snd s2)).

(** Every daily count of the batch is non-negative. *)
Definition nonneg_counts (clone_data : list RepoData) : Prop :=
  Forall
    (fun repo =>
       Forall (fun e => 0 <= count (snd e)) (Dict.items (daily_breakdown repo)))
    clone_data.

(** The [period_unique] values that the reports carry for [name], in the
    order they are processed. *)
Definition reported_uniques (name : string) (reports : list RepoData)
    : list Z :=
  map period_unique
    (filter (fun r => String.eqb (repo_name r) name) reports).

(** The running maximum of a list of values above [old]. *)
Definition high_water (old : Z) (values : list Z) : Z :=
  fold_left Z.max values old.

(** [s] is [l] sorted by descending key, elements of equal key staying in
    the order they have in [l]. *)
Definition stable_descending {A : Type} (key : A -> Z) (l s : list A) : Prop :=
  Permutation s l /\
  StronglySorted (fun a b => key b <= key a) s /\
  forall k, filter (fun a => key a =? k) s = filter (fun a => key a =? k) l.

(** The traffic call of a repository of the listing succeeded. *)
Definition fetched (repo : Repository) : bool :=
  match get_clones_traffic repo with
  | Ok _ => true
  | Raise _ => false
  end.

(** The lines that [main] prints before it fetches. *)
Definition preamble (l : Line) : bool :=
  match l with
  | LoadedHistorical _ | LastRun _ => true
  | _ => false
  end.


(* ===================================================================== *)
(** ** Notions for the fetch loop, the log and the summary *)
(* ===================================================================== *)

(** The report that the fetch loop builds from a successful traffic call
    (lines 82-89). *)
Definition report_for (timestamp today : string) (r : RepoData)
    (repo : Repository) : Prop :=
  exists clones,
    get_clones_traffic repo = Ok clones /\
    r = mkRepoData timestamp today (repository_name repo) (clones_count clones)
          (clones_uniques clones) (daily_clones_of clones).

(** The last element of an answer that is dated [day]. *)
Fixpoint last_for_day (day : string) (days : list DayData) : option DayData :=
  match days with
  | [] => None
  | d :: rest =>
      match last_for_day day rest with
      | Some d' => Some d'
      | None => if String.eqb day (day_timestamp d) then Some d else None
      end
  end.

(** The rows that [update_csv] writes for a batch (lines 125-127). *)
Definition csv_rows (clone_data : list RepoData) : list CsvLine :=
  map (fun data =>
         CsvRecord (mkCsvRow (timestamp data) (date data) (repo_name data)
                      (period_clones data) (period_unique data)))
      clone_data.

(** Every day of every breakdown of the batch is on or after every cutoff
    date that the clock shows. *)
Definition days_retained (clock : nat -> string) (clone_data : list RepoData)
    : Prop :=
  forall repo day i,
    In repo clone_data -> In day (Dict.keys (daily_breakdown repo)) ->
    str_ge day (clock i) = true.

(** The first and the last report of [name] in a batch. *)
Definition first_report (name : string) (clone_data : list RepoData)
    : option RepoData :=
  find (fun r => String.eqb (repo_name r) name) clone_data.

Definition last_report (name : string) (clone_data : list RepoData)
    : option RepoData :=
  find (fun r => String.eqb (repo_name r) name) (rev clone_data).

(** A repository has an entry of totals exactly when it has a ledger. *)
Definition in_step (st : State) : Prop :=
  forall name,
    Dict.contains name (fst st) = Dict.contains name (snd st).

(** The sum of [total_clones] over all tracked repositories (line 193). *)
Definition overall_total_clones (cumulative : dict RepoTotals) : Z :=
  sum (map total_clones (Dict.values cumulative)).

(** The sum of [total_unique] over all tracked repositories (line 194). *)
Definition overall_total_unique (cumulative : dict RepoTotals) : Z :=
  sum (map total_unique (Dict.values cumulative)).

(** An entry of the period top list shows the name and the two counts of a
    report. *)
Definition period_entry_of (e : TopPeriod) (r : RepoData) : Prop :=
  tp_name e = repo_name r /\
  tp_period_clones e = period_clones r /\
  tp_period_unique e = period_unique r.

(** [total_clones] of an item of [cumulative_totals]. *)
Definition item_total_clones (item : string * RepoTotals) : Z :=
  total_clones (snd item).

(** An entry of the cumulative top list shows the key and the two totals of
    an item of [cumulative_totals]. *)
Definition cumulative_entry_of (e : TopCumulative)
    (item : string * RepoTotals) : Prop :=
  tc_name e = fst item /\
  tc_total_clones e = total_clones (snd item) /\
  tc_total_unique e = total_unique (snd item).

(* ===================================================================== *)
(** ** The star tracker, [track_stars.py] *)
(* ===================================================================== *)

Module Stars.

(** A repository of the listing; reading an attribute may raise. *)
Record Repository : Type := mkRepository {
  name : string;
  stargazers_count : result Z;
  forks_count : result Z;
  watchers_count : result Z;
  private : result bool;
  language : result (option string)
}.

(** One element of [star_data] (lines 37-45); [row_language] is the key
    ['language']. *)
Record StarData : Type := mkStarData {
  timestamp : string;
  repo_name : string;
  stars : Z;
  forks : Z;
  watchers : Z;
  is_private : bool;
  row_language : string
}.

Record Environment : Type := mkEnvironment {
  ACCESS_TOKEN : option string;
  GITHUB_USERNAME : option string;
  get_user_repos : string -> result (list Repository);
  now_timestamp : string
}.

(** [repo.language or 'N/A']. *)
Definition language_or_na (l : option string) : string :=
  match l with
  | Some s => if String.eqb s "" then "N/A" else s
  | None => "N/A"
  end.

(** Lines 37-45: the dictionary of one repository, its values read in the
    order of the literal. *)
Definition repo_data_of (timestamp : string) (repo : Repository) (stars : Z)
    : result StarData :=
  forks <- forks_count repo ;;
  watchers <- watchers_count repo ;;
  is_private <- private repo ;;
  lang <- language repo ;;
  Ok (mkStarData timestamp (name repo) stars forks watchers is_private
        (language_or_na lang)).

(** Lines 32-54: one repository of the listing.  The running total is
    raised before the dictionary is built. *)
Definition fetch_repo (timestamp : string) (acc : list StarData * Z)
    (repo : Repository) : list StarData * Z :=
  let '(star_data, total_stars) := acc in
  match stargazers_count repo with
  | Raise _ => (star_data, total_stars)
  | Ok stars =>
      let total_stars := total_stars + stars in
      match repo_data_of timestamp repo stars with
      | Ok repo_data => (star_data ++ [repo_data], total_stars)
      | Raise _ => (star_data, total_stars)
      end
  end.

(** [get_star_stats()]. *)
Definition get_star_stats (env : Environment)
    : result (list StarData * Z * string) :=
  if negb (truthy (ACCESS_TOKEN env)) || negb (truthy (GITHUB_USERNAME env))
  then Raise (ValueError "ACCESS_TOKEN and GITHUB_USERNAME must be set")
  else
    match GITHUB_USERNAME env with
    | None => Raise (ValueError "ACCESS_TOKEN and GITHUB_USERNAME must be set")
    | Some username =>
        repos <- get_user_repos env username ;;
        let timestamp := now_timestamp env in
        let '(star_data, total_stars) :=
          fold_left (fetch_repo timestamp) repos ([], 0) in
        Ok (star_data, total_stars, timestamp)
    end.

Inductive CsvLine : Type :=
| CsvHeader (fieldnames : list string)
| CsvRecord (row : StarData).

(** Entry of [top_repositories]. *)
Record TopStar : Type := mkTopStar {
  top_name : string;
  top_stars : Z;
  top_language : string
}.

(** The object dumped to [stars_summary.json]. *)
Record Summary : Type := mkSummary {
  last_updated : string;
  total_stars : Z;
  total_repositories : Z;
  public_repositories : Z;
  starred_repositories : Z;
  top_repositories : list TopStar
}.

Record Files : Type := mkFiles {
  star_data_csv : option (list CsvLine);
  stars_summary_json : option Summary
}.

Definition fieldnames : list string :=
  ["timestamp"; "repo_name"; "stars"; "forks"; "watchers"; "is_private";
   "language"].

(** [update_csv(star_data)]. *)
Definition update_csv (star_data : list StarData) (fs : Files) : Files :=
  let rows := map CsvRecord star_data in
  let contents :=
    match star_data_csv fs with
    | Some old => old ++ rows
    | None => CsvHeader fieldnames :: rows
    end in
  mkFiles (Some contents) (stars_summary_json fs).

Definition top_entry (r : StarData) : TopStar :=
  mkTopStar (repo_name r) (stars r) (row_language r).

(** Lines 87-102: the summary object. *)
Definition build_summary (total_stars : Z) (timestamp : string)
    (star_data : list StarData) : Summary :=
  let public_repos := filter (fun r => negb (is_private r)) star_data in
  let starred_repos := filter (fun r => 0 <? stars r) star_data in
  mkSummary timestamp total_stars
    (Z.of_nat (List.length star_data))
    (Z.of_nat (List.length public_repos))
    (Z.of_nat (List.length starred_repos))
    (firstn 10 (sorted_reverse top_stars (map top_entry star_data))).

(** [update_summary(total_stars, timestamp, star_data)]. *)
Definition update_summary (total_stars : Z) (timestamp : string)
    (star_data : list StarData) (fs : Files) : Files :=
  mkFiles (star_data_csv fs)
    (Some (build_summary total_stars timestamp star_data)).

(** The lines that [main] itself prints. *)
Inductive Line : Type :=
| CompletedSuccessfully
| NoStarDataWarning
| Error (e : exn).

(** [main()]. *)
Definition main (env : Environment) (fs : Files)
    : Files * list Line * result unit :=
  match get_star_stats env with
  | Raise e => (fs, [Error e], Raise e)
  | Ok (star_data, total_stars, timestamp) =>
      match star_data with
      | [] => (fs, [NoStarDataWarning], Ok tt)
      | _ :: _ =>
          let fs := update_csv star_data fs in
          let fs := update_summary total_stars timestamp star_data fs in
          (fs, [CompletedSuccessfully], Ok tt)
      end
  end.

(** The stars that the running total counts for a repository that is then
    left out of [star_data]: its star count could be read, a later attribute
    could not. *)
Definition dropped_stars (timestamp : string) (repo : Repository) : Z :=
  match stargazers_count repo with
  | Ok stars =>
      match repo_data_of timestamp repo stars with
      | Ok _ => 0
      | Raise _ => stars
      end
  | Raise _ => 0
  end.

End Stars.

(** An entry of the star top list shows the name, the stars and the
    language of a row of [star_data]. *)
Definition star_entry_of (e : Stars.TopStar) (r : Stars.StarData) : Prop :=
  Stars.top_name e = Stars.repo_name r /\
  Stars.top_stars e = Stars.stars r /\
  Stars.top_language e = Stars.row_language r.

(* ===================================================================== *)
(** * Properties *)
(* ===================================================================== *)

Unset Implicit Arguments.

(** ** Dictionaries *)

Section DictFacts.
Context {V : Type}.
Implicit Types (d : dict V) (k : string) (v : V).

Lemma get_set k k' v d :
  Dict.get k (Dict.set k' v d) =
  if String.eqb k k' then Some v else Dict.get k d.
Proof.
  induction d as [|[k0 v0] d IH]; simpl.
  - destruct (String.eqb_spec k k'); reflexivity.
  - destruct (String.eqb_spec k' k0) as [->|Hne]; simpl.
    + destruct (String.eqb_spec k k0); reflexivity.
    + rewrite IH. destruct (String.eqb_spec k k0) as [->|]; [|reflexivity].
      destruct (String.eqb_spec k0 k'); congruence.
Qed.

Lemma get_set_same k v d : Dict.get k (Dict.set k v d) = Some v.
Proof. rewrite get_set, String.eqb_refl. reflexivity. Qed.

Lemma get_set_other k k' v d :
  k <> k' -> Dict.get k (Dict.set k' v d) = Dict.get k d.
Proof.
  intros H. rewrite get_set. destruct (String.eqb_spec k k'); congruence.
Qed.

Lemma contains_set k k' v d :
  Dict.contains k (Dict.set k' v d) = String.eqb k k' || Dict.contains k d.
Proof.
  unfold Dict.contains. rewrite get_set.
  destruct (String.eqb k k'); reflexivity.
Qed.

Lemma set_set k v v' d : Dict.set k v (Dict.set k v' d) = Dict.set k v d.
Proof.
  induction d as [|[k0 v0] d IH]; simpl.
  - rewrite String.eqb_refl. reflexivity.
  - destruct (String.eqb_spec k k0) as [->|Hne]; simpl.
    + rewrite String.eqb_refl. reflexivity.
    + destruct (String.eqb_spec k k0); [congruence|]. rewrite IH. reflexivity.
Qed.

Lemma set_get_same k v d : Dict.get k d = Some v -> Dict.set k v d = d.
Proof.
  induction d as [|[k0 v0] d IH]; simpl; [discriminate|].
  destruct (String.eqb_spec k k0) as [->|Hne]; intros H.
  - congruence.
  - rewrite IH by assumption. reflexivity.
Qed.

Lemma get_None_keys k d : Dict.get k d = None <-> ~ In k (Dict.keys d).
Proof.
  induction d as [|[k0 v0] d IH]; simpl.
  - tauto.
  - destruct (String.eqb_spec k k0) as [->|Hne].
    + split; [discriminate|]. intros H. exfalso. apply H. now left.
    + rewrite IH. split; intros H; [intros [E|HI]; [congruence|tauto]|tauto].
Qed.

Lemma contains_keys k d : Dict.contains k d = true <-> In k (Dict.keys d).
Proof.
  unfold Dict.contains. pose proof (get_None_keys k d) as H.
  destruct (Dict.get k d).
  - split; [intros _|reflexivity].
    destruct (in_dec string_dec k (Dict.keys d)) as [|n]; [assumption|].
    apply H in n. discriminate.
  - split; [discriminate|]. intros HI. exfalso. now apply H.
Qed.

Lemma get_In k v d : Dict.wf d -> (Dict.get k d = Some v <-> In (k, v) d).
Proof.
  unfold Dict.wf. induction d as [|[k0 v0] d IH]; simpl; intros Hnd.
  - split; [discriminate|tauto].
  - inversion Hnd as [|? ? Hnotin Hnd']; subst.
    destruct (String.eqb_spec k k0) as [->|Hne].
    + split.
      * intros [= ->]. now left.
      * intros [[= ->]|HI]; [reflexivity|].
        exfalso. apply Hnotin. apply (in_map fst) in HI. exact HI.
    + rewrite (IH Hnd'). split; [tauto|].
      intros [[= -> ->]|HI]; [congruence|assumption].
Qed.

Lemma keys_set k v d :
  Dict.keys (Dict.set k v d) =
  if Dict.contains k d then Dict.keys d else Dict.keys d ++ [k].
Proof.
  unfold Dict.contains, Dict.keys.
  induction d as [|[k0 v0] d IH]; simpl; [reflexivity|].
  destruct (String.eqb_spec k k0) as [->|Hne]; simpl; [reflexivity|].
  rewrite IH. destruct (Dict.get k d); reflexivity.
Qed.

Lemma wf_set k v d : Dict.wf d -> Dict.wf (Dict.set k v d).
Proof.
  unfold Dict.wf. intros H. rewrite keys_set.
  destruct (Dict.contains k d) eqn:E; [assumption|].
  apply NoDup_app; [assumption|repeat constructor; simpl; tauto|].
  intros x Hx [->|[]].
  apply contains_keys in Hx. congruence.
Qed.

Lemma get_filter_key (p : string -> bool) k d :
  Dict.get k (filter (fun '(day, _) => p day) d) =
  if p k then Dict.get k d else None.
Proof.
  induction d as [|[k0 v0] d IH]; simpl.
  - destruct (p k); reflexivity.
  - destruct (p k0) eqn:E0; simpl.
    + destruct (String.eqb_spec k k0) as [->|Hne]; [now rewrite E0|exact IH].
    + destruct (String.eqb_spec k k0) as [->|Hne]; [now rewrite IH, E0|exact IH].
Qed.

Lemma equiv_of_perm d1 d2 :
  Dict.wf d1 -> Permutation d1 d2 -> Dict.equiv d1 d2.
Proof.
  intros Hwf HP k.
  assert (Hwf2 : Dict.wf d2).
  { unfold Dict.wf, Dict.keys in *.
    eapply Permutation_NoDup; [apply Permutation_map; exact HP|exact Hwf]. }
  destruct (Dict.get k d1) as [v|] eqn:E1.
  - symmetry. apply get_In; [assumption|].
    eapply Permutation_in; [exact HP|]. now apply get_In.
  - destruct (Dict.get k d2) as [v|] eqn:E2; [|reflexivity].
    apply get_In in E2; [|assumption].
    apply Permutation_sym in HP.
    apply (Permutation_in _ HP) in E2. apply get_In in E2; congruence.
Qed.
End DictFacts.

(** ** The order on [str] *)

Lemma ascii_compare_trans a b c o :
  Ascii.compare a b = o -> Ascii.compare b c = o -> Ascii.compare a c = o.
Proof.
  unfold Ascii.compare. intros H1 H2. destruct o.
  - apply N.compare_eq in H1, H2. rewrite H1, H2. apply N.compare_refl.
  - rewrite N.compare_lt_iff in *. lia.
  - rewrite N.compare_gt_iff in *. lia.
Qed.

Lemma ascii_compare_Eq a b : Ascii.compare a b = Eq -> a = b.
Proof. apply Ascii.compare_eq_iff. Qed.

Lemma ascii_compare_refl a : Ascii.compare a a = Eq.
Proof. unfold Ascii.compare. apply N.compare_refl. Qed.

Lemma string_compare_refl s : String.compare s s = Eq.
Proof.
  induction s as [|a s IH]; simpl; [reflexivity|].
  now rewrite ascii_compare_refl.
Qed.

Lemma string_compare_Lt_trans s1 : forall s2 s3,
  String.compare s1 s2 = Lt -> String.compare s2 s3 = Lt ->
  String.compare s1 s3 = Lt.
Proof.
  induction s1 as [|a s1 IH]; intros [|b s2] [|c s3]; simpl;
    try discriminate; try reflexivity.
  destruct (Ascii.compare a b) eqn:Eab; try discriminate;
    destruct (Ascii.compare b c) eqn:Ebc; try discriminate; intros H1 H2.
  - apply ascii_compare_Eq in Eab, Ebc. subst.
    rewrite ascii_compare_refl. eauto.
  - apply ascii_compare_Eq in Eab. subst. now rewrite Ebc.
  - apply ascii_compare_Eq in Ebc. subst. now rewrite Eab.
  - now rewrite (ascii_compare_trans _ _ _ _ Eab Ebc).
Qed.

Lemma string_leb_trans s1 s2 s3 :
  String.leb s1 s2 = true -> String.leb s2 s3 = true -> String.leb s1 s3 = true.
Proof.
  unfold String.leb. intros H1 H2.
  destruct (String.compare s1 s2) eqn:E12; try discriminate;
    destruct (String.compare s2 s3) eqn:E23; try discriminate.
  - apply String.compare_eq_iff in E12, E23. subst.
    now rewrite string_compare_refl.
  - apply String.compare_eq_iff in E12. subst. now rewrite E23.
  - apply String.compare_eq_iff in E23. subst. now rewrite E12.
  - now rewrite (string_compare_Lt_trans _ _ _ E12 E23).
Qed.

Lemma str_ge_trans a b c :
  str_ge a b = true -> str_ge b c = true -> str_ge a c = true.
Proof. unfold str_ge. intros H1 H2. exact (string_leb_trans _ _ _ H2 H1). Qed.

(** ** The reconciliation loop never raises *)

Lemma set_total_clones_same t : set_total_clones t (total_clones t) = t.
Proof. destruct t; reflexivity. Qed.

Lemma getitem_Some {V} (k : string) (d : dict V) v :
  Dict.get k d = Some v -> getitem k d = Ok v.
Proof. unfold getitem. now intros ->. Qed.

(** The inner loop rewrites the entries of [name] and nothing else. *)
Lemma process_days_spec name entries :
  forall cumulative daily_records t ledger,
    Dict.get name cumulative = Some t ->
    Dict.get name daily_records = Some ledger ->
    for_each (process_day name) entries (cumulative, daily_records) =
    Ok (Dict.set name
          (set_total_clones t (snd (add_days entries ledger (total_clones t))))
          cumulative,
        Dict.set name (fst (add_days entries ledger (total_clones t)))
          daily_records).
Proof.
  induction entries as [|[day_str day_stats] rest IH];
    intros cumulative daily_records t ledger Hc Hd; simpl.
  - rewrite set_total_clones_same, !set_get_same by assumption. reflexivity.
  - rewrite (getitem_Some _ _ _ Hd). simpl.
    destruct (Dict.contains day_str ledger) eqn:E; simpl.
    + apply IH; assumption.
    + rewrite (getitem_Some _ _ _ Hc). simpl.
      rewrite (IH _ _ (set_total_clones t (total_clones t + count day_stats))
                 (Dict.set day_str (snapshot day_stats) ledger))
        by apply get_set_same.
      rewrite !set_set. reflexivity.
Qed.

(** One iteration of the outer loop is the two assignments of [repo_step]. *)
Lemma process_repo_spec cutoff_date repo st :
  process_repo cutoff_date repo st = Ok (repo_step cutoff_date repo st).
Proof.
  destruct st as [cumulative daily_records].
  unfold process_repo, repo_step, ledger_of, Dict.items. simpl fst. simpl snd.
  set (name := repo_name repo).
  set (cum0 := if Dict.contains name cumulative then cumulative else _).
  set (dr0 := if Dict.contains name daily_records then daily_records else _).
  set (t0 := match Dict.get name cumulative with Some t => t | None => _ end).
  set (l0 := match Dict.get name daily_records with Some l => l | None => _ end).
  assert (Hc : Dict.get name cum0 = Some t0).
  { subst cum0 t0. unfold Dict.contains.
    destruct (Dict.get name cumulative) eqn:E; [exact E|apply get_set_same]. }
  assert (Hd : Dict.get name dr0 = Some l0).
  { subst dr0 l0. unfold Dict.contains.
    destruct (Dict.get name daily_records) eqn:E; [exact E|apply get_set_same]. }
  assert (Hc' : forall v, Dict.set name v cum0 = Dict.set name v cumulative).
  { intros v. subst cum0.
    destruct (Dict.contains name cumulative); [reflexivity|apply set_set]. }
  assert (Hd' : forall v, Dict.set name v dr0 = Dict.set name v daily_records).
  { intros v. subst dr0.
    destruct (Dict.contains name daily_records); [reflexivity|apply set_set]. }
  rewrite (process_days_spec _ _ _ _ _ _ Hc Hd). simpl.
  unfold getitem. rewrite !get_set_same. simpl.
  rewrite !get_set_same. simpl. rewrite !set_set, Hc', Hd'. reflexivity.
Qed.

Lemma for_each_from_spec clock clone_data : forall i st,
  for_each_from (fun i => process_repo (clock i)) i clone_data st =
  Ok (reconcile_from clock i clone_data st).
Proof.
  induction clone_data as [|repo rest IH]; intros i st; simpl; [reflexivity|].
  rewrite process_repo_spec. simpl. apply IH.
Qed.

(** [calculate_cumulative_totals] always returns. *)
Lemma calculate_cumulative_totals_spec clock clone_data historical_data today :
  calculate_cumulative_totals clock clone_data historical_data today =
  Ok (reconcile_from clock 0 clone_data
        (cumulative_totals historical_data, daily_records historical_data)).
Proof. unfold calculate_cumulative_totals. apply for_each_from_spec. Qed.

(** ** What an iteration does to each repository *)

Lemma repo_step_fst_other c repo st n :
  n <> repo_name repo ->
  Dict.get n (fst (repo_step c repo st)) = Dict.get n (fst st).
Proof. intros H. unfold repo_step. simpl. now apply get_set_other. Qed.

Lemma repo_step_snd_other c repo st n :
  n <> repo_name repo ->
  Dict.get n (snd (repo_step c repo st)) = Dict.get n (snd st).
Proof. intros H. unfold repo_step. simpl. now apply get_set_other. Qed.

Lemma ledger_of_step_other c repo st n :
  n <> repo_name repo -> ledger_of n (repo_step c repo st) = ledger_of n st.
Proof. intros H. unfold ledger_of. now rewrite repo_step_snd_other. Qed.

Lemma clones_total_step_other c repo st n :
  n <> repo_name repo -> clones_total n (repo_step c repo st) = clones_total n st.
Proof. intros H. unfold clones_total. now rewrite repo_step_fst_other. Qed.

(** The entries of a repository that no report of the batch names are the
    ones it had before. *)
Lemma reconcile_from_other clock n clone_data : forall i st,
  ~ In n (map repo_name clone_data) ->
  Dict.get n (fst (reconcile_from clock i clone_data st)) = Dict.get n (fst st) /\
  Dict.get n (snd (reconcile_from clock i clone_data st)) = Dict.get n (snd st).
Proof.
  induction clone_data as [|repo rest IH]; intros i st Hn; simpl; [tauto|].
  simpl in Hn.
  destruct (IH (S i) (repo_step (clock i) repo st)) as [H1 H2]; [tauto|].
  rewrite H1, H2, repo_step_fst_other, repo_step_snd_other by intuition congruence.
  tauto.
Qed.

(** The entries that an iteration writes depend on the entries of the same
    repository only. *)
Lemma repo_step_view c repo st st' :
  Dict.get (repo_name repo) (fst st) = Dict.get (repo_name repo) (fst st') ->
  Dict.get (repo_name repo) (snd st) = Dict.get (repo_name repo) (snd st') ->
  Dict.get (repo_name repo) (fst (repo_step c repo st)) =
  Dict.get (repo_name repo) (fst (repo_step c repo st')) /\
  Dict.get (repo_name repo) (snd (repo_step c repo st)) =
  Dict.get (repo_name repo) (snd (repo_step c repo st')).
Proof.
  intros H1 H2. unfold repo_step, ledger_of. simpl.
  rewrite !get_set_same, H1, H2. tauto.
Qed.

(** With pairwise distinct names, the entries of the [k]-th report after the
    loop are those that its own iteration writes on the initial state. *)
Lemma reconcile_from_view clock clone_data : forall i st k repo,
  NoDup (map repo_name clone_data) ->
  nth_error clone_data k = Some repo ->
  Dict.get (repo_name repo) (fst (reconcile_from clock i clone_data st)) =
  Dict.get (repo_name repo) (fst (repo_step (clock (i + k)%nat) repo st)) /\
  Dict.get (repo_name repo) (snd (reconcile_from clock i clone_data st)) =
  Dict.get (repo_name repo) (snd (repo_step (clock (i + k)%nat) repo st)).
Proof.
  induction clone_data as [|r0 rest IH]; intros i st k repo Hnd Hk.
  - destruct k; discriminate.
  - simpl in Hnd. inversion Hnd as [|? ? Hnotin Hnd']; subst.
    destruct k as [|k]; simpl in Hk |- *.
    + injection Hk as ->. rewrite Nat.add_0_r.
      now apply reconcile_from_other.
    + assert (Hne : repo_name repo <> repo_name r0).
      { intros E. apply Hnotin. rewrite <- E.
        apply in_map. eapply nth_error_In; eassumption. }
      destruct (IH (S i) (repo_step (clock i) r0 st) k repo Hnd' Hk) as [H1 H2].
      rewrite H1, H2. replace (S i + k)%nat with (i + S k)%nat by lia.
      apply repo_step_view;
        [now apply repo_step_fst_other|now apply repo_step_snd_other].
Qed.

(** ** The inner loop *)

Lemma sum_from l : forall a, fold_left Z.add l a = a + sum l.
Proof.
  unfold sum. induction l as [|x l IH]; intros a; simpl; [lia|].
  rewrite IH, (IH x). lia.
Qed.

Lemma sum_cons x l : sum (x :: l) = x + sum l.
Proof. unfold sum. simpl. rewrite sum_from. reflexivity. Qed.

Lemma sum_perm l l' : Permutation l l' -> sum l = sum l'.
Proof.
  induction 1; rewrite ?sum_cons; try reflexivity; try lia.
Qed.

(** The ledger after the inner loop: old entries stay, absent days take the
    snapshot of the breakdown. *)
Lemma add_days_get k entries : forall ledger total,
  Dict.get k (fst (add_days entries ledger total)) =
  match Dict.get k ledger with
  | Some v => Some v
  | None => option_map snapshot (Dict.get k entries)
  end.
Proof.
  induction entries as [|[d s] rest IH]; intros ledger total; simpl.
  - destruct (Dict.get k ledger); reflexivity.
  - unfold Dict.contains. destruct (Dict.get d ledger) eqn:Ed.
    + rewrite IH. destruct (String.eqb_spec k d) as [->|]; [|reflexivity].
      now rewrite Ed.
    + rewrite IH, get_set.
      destruct (String.eqb_spec k d) as [->|]; [|reflexivity].
      now rewrite Ed.
Qed.

Lemma filter_fresh_set d (v : DayStats) (ledger : dict DayStats)
    (rest : list (string * DayStats)) :
  ~ In d (Dict.keys rest) ->
  filter (fun '(day, _) => negb (Dict.contains day (Dict.set d v ledger))) rest =
  filter (fun '(day, _) => negb (Dict.contains day ledger)) rest.
Proof.
  intros Hd. apply filter_ext_in. intros [day s] HI.
  rewrite contains_set. destruct (String.eqb_spec day d) as [->|]; [|reflexivity].
  exfalso. apply Hd. apply (in_map fst) in HI. exact HI.
Qed.

(** The total after the inner loop: the counts of the days that the ledger
    did not have are added. *)
Lemma add_days_total entries : forall ledger total,
  Dict.wf entries ->
  snd (add_days entries ledger total) = total + sum (fresh_counts entries ledger).
Proof.
  unfold fresh_counts, Dict.wf.
  induction entries as [|[d s] rest IH]; intros ledger total Hwf; simpl.
  - unfold sum. simpl. lia.
  - inversion Hwf as [|? ? Hnotin Hwf']; subst.
    destruct (Dict.contains d ledger) eqn:Ed; simpl.
    + now apply IH.
    + rewrite IH by assumption.
      rewrite (filter_fresh_set _ _ _ _ Hnotin), sum_cons. simpl. lia.
Qed.

Lemma add_days_total_mono entries : forall ledger total,
  Forall (fun e => 0 <= count (snd e)) entries ->
  total <= snd (add_days entries ledger total).
Proof.
  induction entries as [|[d s] rest IH]; intros ledger total Hpos; simpl.
  - lia.
  - inversion Hpos as [|? ? Hs Hrest]; subst. simpl in Hs.
    destruct (Dict.contains d ledger).
    + now apply IH.
    + specialize (IH (Dict.set d (snapshot s) ledger) (total + count s) Hrest).
      lia.
Qed.

(** ** Sequences of cycles *)

Lemma run_cycle_spec c st :
  run_cycle c st = Ok (reconcile_from (cycle_clock c) 0 (cycle_batch c) st).
Proof.
  unfold run_cycle. rewrite calculate_cumulative_totals_spec. simpl.
  now destruct st.
Qed.

Lemma run_cycles_spec cycles : forall st,
  run_cycles cycles st = Ok (reconcile_cycles cycles st).
Proof.
  unfold run_cycles, reconcile_cycles.
  induction cycles as [|c rest IH]; intros st; simpl; [reflexivity|].
  rewrite run_cycle_spec. simpl. apply IH.
Qed.

(** ** Totals never go down *)

Lemma repo_step_clones_total c repo st :
  clones_total (repo_name repo) (repo_step c repo st) =
  snd (add_days (daily_breakdown repo) (ledger_of (repo_name repo) st)
         (clones_total (repo_name repo) st)).
Proof.
  unfold clones_total, repo_step. simpl. rewrite get_set_same. simpl.
  destruct (Dict.get (repo_name repo) (fst st)); reflexivity.
Qed.

Lemma repo_step_unique_total c repo st :
  unique_total (repo_name repo) (repo_step c repo st) =
  Z.max (unique_total (repo_name repo) st) (period_unique repo).
Proof.
  unfold unique_total, repo_step. simpl. rewrite get_set_same. simpl.
  destruct (Dict.get (repo_name repo) (fst st)); reflexivity.
Qed.

Lemma repo_step_mono c repo st name :
  Forall (fun e => 0 <= count (snd e)) (daily_breakdown repo) ->
  clones_total name st <= clones_total name (repo_step c repo st) /\
  unique_total name st <= unique_total name (repo_step c repo st).
Proof.
  intros Hpos. destruct (string_dec name (repo_name repo)) as [->|Hne].
  - rewrite repo_step_clones_total, repo_step_unique_total.
    split; [now apply add_days_total_mono|lia].
  - unfold clones_total, unique_total.
    rewrite repo_step_fst_other by assumption. lia.
Qed.

Lemma reconcile_from_mono clock name clone_data : forall i st,
  nonneg_counts clone_data ->
  clones_total name st <= clones_total name (reconcile_from clock i clone_data st) /\
  unique_total name st <= unique_total name (reconcile_from clock i clone_data st).
Proof.
  unfold nonneg_counts.
  induction clone_data as [|repo rest IH]; intros i st Hpos; simpl; [lia|].
  inversion Hpos as [|? ? Hrepo Hrest]; subst.
  destruct (repo_step_mono (clock i) repo st name Hrepo).
  destruct (IH (S i) (repo_step (clock i) repo st) Hrest). lia.
Qed.

Lemma reconcile_cycles_mono name cycles : forall st,
  Forall (fun c => nonneg_counts (cycle_batch c)) cycles ->
  clones_total name st <= clones_total name (reconcile_cycles cycles st) /\
  unique_total name st <= unique_total name (reconcile_cycles cycles st).
Proof.
  unfold reconcile_cycles.
  induction cycles as [|c rest IH]; intros st Hpos; simpl; [lia|].
  inversion Hpos as [|? ? Hc Hrest]; subst.
  destruct (reconcile_from_mono (cycle_clock c) name (cycle_batch c) 0 st Hc).
  destruct (IH (reconcile_from (cycle_clock c) 0 (cycle_batch c) st) Hrest). lia.
Qed.

Lemma high_water_ge values : forall old, old <= high_water old values.
Proof.
  unfold high_water.
  induction values as [|v rest IH]; intros old; simpl; [lia|].
  specialize (IH (Z.max old v)). lia.
Qed.

Lemma reconcile_from_unique clock name clone_data : forall i st,
  unique_total name (reconcile_from clock i clone_data st) =
  high_water (unique_total name st) (reported_uniques name clone_data).
Proof.
  unfold high_water, reported_uniques.
  induction clone_data as [|repo rest IH]; intros i st; simpl; [reflexivity|].
  rewrite IH. destruct (String.eqb_spec (repo_name repo) name) as [<-|Hn]; simpl.
  - now rewrite repo_step_unique_total.
  - unfold unique_total. now rewrite repo_step_fst_other by congruence.
Qed.

Lemma reconcile_cycles_unique name cycles : forall st,
  unique_total name (reconcile_cycles cycles st) =
  high_water (unique_total name st) (reported_uniques name (reports_of cycles)).
Proof.
  unfold reconcile_cycles, reports_of.
  induction cycles as [|c rest IH]; intros st; simpl; [reflexivity|].
  rewrite IH, reconcile_from_unique.
  unfold high_water, reported_uniques.
  now rewrite filter_app, map_app, fold_left_app.
Qed.

(** Tracked repositories stay tracked. *)
Lemma reconcile_from_contains clock name clone_data : forall i st,
  Dict.contains name (fst (reconcile_from clock i clone_data st)) =
  Dict.contains name (fst st) || existsb (String.eqb name) (map repo_name clone_data).
Proof.
  induction clone_data as [|repo rest IH]; intros i st; simpl.
  - now rewrite orb_false_r.
  - rewrite IH. unfold repo_step. simpl. rewrite contains_set.
    destruct (Dict.contains name (fst st)), (String.eqb name (repo_name repo));
      reflexivity.
Qed.

(** ** [sorted(.., reverse=True)] *)

Section SortingFacts.
Context {A : Type} (key : A -> Z).

Lemma insert_desc_perm x l : Permutation (insert_desc key x l) (x :: l).
Proof.
  induction l as [|y l IH]; simpl; [reflexivity|].
  destruct (key x <? key y); [|reflexivity].
  rewrite IH. apply perm_swap.
Qed.

Lemma insert_desc_sorted x l :
  Sorted (fun a b => key b <= key a) l ->
  Sorted (fun a b => key b <= key a) (insert_desc key x l).
Proof.
  induction l as [|y l IH]; intros Hs; simpl.
  - repeat constructor.
  - inversion Hs as [|? ? Hl Hhd]; subst.
    destruct (Z.ltb_spec (key x) (key y)).
    + constructor; [now apply IH|].
      destruct l as [|z l]; simpl.
      * constructor. lia.
      * inversion Hhd; subst.
        destruct (key x <? key z); constructor; lia.
    + constructor; [assumption|]. constructor. lia.
Qed.

Lemma insert_desc_ties x l k :
  filter (fun a => key a =? k) (insert_desc key x l) =
  filter (fun a => key a =? k) (x :: l).
Proof.
  induction l as [|y l IH]; simpl; [reflexivity|].
  destruct (Z.ltb_spec (key x) (key y)); [|reflexivity].
  simpl in IH |- *. rewrite IH.
  destruct (Z.eqb_spec (key x) k), (Z.eqb_spec (key y) k);
    try reflexivity; lia.
Qed.

Lemma sorted_reverse_stable l : stable_descending key l (sorted_reverse key l).
Proof.
  unfold stable_descending, sorted_reverse.
  induction l as [|x l (HP & HS & HT)]; simpl.
  - repeat split; constructor.
  - split; [|split].
    + rewrite insert_desc_perm. now constructor.
    + apply Sorted_StronglySorted; [intros a b c; lia|].
      apply insert_desc_sorted. now apply StronglySorted_Sorted.
    + intros k. rewrite insert_desc_ties. simpl. now rewrite HT.
Qed.

(** A list has one stable descending arrangement. *)
Lemma stable_descending_unique l : forall s1 s2,
  stable_descending key l s1 -> stable_descending key l s2 -> s1 = s2.
Proof.
  assert (Hmain : forall s1 s2 : list A,
    Permutation s1 s2 ->
    StronglySorted (fun a b => key b <= key a) s1 ->
    StronglySorted (fun a b => key b <= key a) s2 ->
    (forall k, filter (fun a => key a =? k) s1 = filter (fun a => key a =? k) s2) ->
    s1 = s2).
  { induction s1 as [|a1 s1 IH]; intros s2 HP H1 H2 HT.
    - apply Permutation_nil in HP. now subst.
    - destruct s2 as [|a2 s2];
        [apply Permutation_sym, Permutation_nil in HP; discriminate|].
      inversion H1 as [|? ? H1' F1]; inversion H2 as [|? ? H2' F2]; subst.
      assert (Hk : key a1 = key a2).
      { assert (I1 : In a1 (a2 :: s2))
          by (eapply Permutation_in; [exact HP|now left]).
        assert (I2 : In a2 (a1 :: s1))
          by (eapply Permutation_in; [apply Permutation_sym; exact HP|now left]).
        rewrite Forall_forall in F1, F2.
        destruct I1 as [->|I1]; [reflexivity|].
        destruct I2 as [->|I2]; [reflexivity|].
        apply F2 in I1. apply F1 in I2. lia. }
      assert (Ha : a1 = a2).
      { specialize (HT (key a1)). simpl in HT.
        rewrite <- Hk, Z.eqb_refl in HT. congruence. }
      subst a2. f_equal. apply IH; try assumption.
      + eapply Permutation_cons_inv; exact HP.
      + intros k. specialize (HT k). simpl in HT.
        destruct (key a1 =? k); congruence. }
  intros s1 s2 (P1 & S1 & T1) (P2 & S2 & T2). apply Hmain; try assumption.
  - rewrite P1. now symmetry.
  - intros k. now rewrite T1, T2.
Qed.
End SortingFacts.

(** Sorting the entries built from a list is building the entries of the
    sorted list, when the entry shows the key. *)
Lemma insert_desc_map {A B} (f : A -> B) (key : A -> Z) (key' : B -> Z) x l :
  (forall a, key' (f a) = key a) ->
  insert_desc key' (f x) (map f l) = map f (insert_desc key x l).
Proof.
  intros Hkey. induction l as [|y l IH]; simpl; [reflexivity|].
  rewrite !Hkey. destruct (key x <? key y); simpl; [now rewrite IH|reflexivity].
Qed.

Lemma sorted_reverse_map {A B} (f : A -> B) (key : A -> Z) (key' : B -> Z) l :
  (forall a, key' (f a) = key a) ->
  sorted_reverse key' (map f l) = map f (sorted_reverse key l).
Proof.
  intros Hkey. unfold sorted_reverse.
  induction l as [|x l IH]; simpl; [reflexivity|].
  rewrite IH. now apply insert_desc_map.
Qed.

Lemma Forall2_map_entries {A B} (R : B -> A -> Prop) (f : A -> B) l :
  (forall a, R (f a) a) -> Forall2 R (map f l) l.
Proof. intros H. induction l; simpl; constructor; auto. Qed.

Lemma top_period_of_reports clone_data :
  top_clones_period clone_data =
  map period_entry (firstn 10 (sorted_reverse period_clones clone_data)).
Proof.
  unfold top_clones_period.
  rewrite (sorted_reverse_map period_entry period_clones tp_period_clones)
    by reflexivity.
  apply firstn_map.
Qed.

Lemma top_cumulative_of_items cumulative_totals :
  top_clones_cumulative cumulative_totals =
  map cumulative_entry
    (firstn 10 (sorted_reverse item_total_clones (Dict.items cumulative_totals))).
Proof.
  unfold top_clones_cumulative.
  rewrite (sorted_reverse_map cumulative_entry item_total_clones tc_total_clones)
    by (intros [name data]; reflexivity).
  apply firstn_map.
Qed.

Lemma period_entry_shows r : period_entry_of (period_entry r) r.
Proof. repeat split. Qed.

Lemma cumulative_entry_shows item :
  cumulative_entry_of (cumulative_entry item) item.
Proof. destruct item. repeat split. Qed.

(** ** The fetch loop and [main] *)

(** The breakdown that the fetch loop builds has pairwise distinct days. *)
Lemma daily_clones_of_wf clones : Dict.wf (daily_clones_of clones).
Proof.
  unfold daily_clones_of.
  assert (H : forall days acc, Dict.wf acc ->
    Dict.wf
      (fold_left
         (fun daily_clones day_data =>
            Dict.set (day_timestamp day_data)
              (mkDayStats (day_count day_data) (day_uniques day_data))
              daily_clones)
         days acc)).
  { induction days as [|d rest IH]; intros acc Hacc; simpl; [assumption|].
    apply IH. now apply wf_set. }
  apply H. constructor.
Qed.

Lemma fetch_names timestamp today repos : forall acc,
  map repo_name (fold_left (fetch_repo timestamp today) repos acc) =
  map repo_name acc ++ map repository_name (filter fetched repos).
Proof.
  induction repos as [|repo rest IH]; intros acc; simpl.
  - now rewrite app_nil_r.
  - rewrite IH. unfold fetch_repo, fetched.
    destruct (get_clones_traffic repo); [|reflexivity].
    rewrite map_app, <- app_assoc. reflexivity.
Qed.

Lemma get_clone_stats_ok env token username repos :
  GITHUB_TOKEN env = Some token -> token <> "" ->
  GITHUB_USERNAME env = Some username -> username <> "" ->
  get_user_repos env username = Ok repos ->
  get_clone_stats env =
  Ok (fold_left (fetch_repo (now_timestamp env) (now_today env)) repos [],
      now_timestamp env, now_today env).
Proof.
  intros Ht Hte Hu Hue Hr. unfold get_clone_stats, truthy.
  rewrite Ht, Hu. apply String.eqb_neq in Hte, Hue. rewrite Hte, Hue. simpl.
  rewrite Hr. reflexivity.
Qed.

Lemma main_preamble fs :
  forallb preamble
    (LoadedHistorical (Dict.len (cumulative_totals (load_historical_data fs))) ::
     match last_run (load_historical_data fs) with
     | Some s => if String.eqb s "" then [] else [LastRun s]
     | None => []
     end) = true.
Proof.
  simpl. destruct (last_run (load_historical_data fs)) as [s|]; [|reflexivity].
  destruct (String.eqb s ""); reflexivity.
Qed.

(** ** Order of the reports and of the days *)

Lemma in_names_nth_error name (clone_data : list RepoData) :
  In name (map repo_name clone_data) ->
  exists k repo, nth_error clone_data k = Some repo /\ repo_name repo = name.
Proof.
  intros HI. apply in_map_iff in HI. destruct HI as (repo & Hname & HI).
  apply In_nth_error in HI. destruct HI as [k Hk]. now exists k, repo.
Qed.

(** With pairwise distinct names the totals after the loop do not depend on
    the order of the reports, and neither do the ledgers when the clock
    shows one cutoff date throughout. *)
Lemma reconcile_perm clock clone_data clone_data' st name :
  NoDup (map repo_name clone_data) ->
  Permutation clone_data clone_data' ->
  Dict.get name (fst (reconcile_from clock 0 clone_data st)) =
  Dict.get name (fst (reconcile_from clock 0 clone_data' st)) /\
  ((forall i j, clock i = clock j) ->
   Dict.get name (snd (reconcile_from clock 0 clone_data st)) =
   Dict.get name (snd (reconcile_from clock 0 clone_data' st))).
Proof.
  intros Hnd HP.
  assert (Hnd' : NoDup (map repo_name clone_data'))
    by (eapply Permutation_NoDup; [apply Permutation_map; exact HP|exact Hnd]).
  destruct (in_dec string_dec name (map repo_name clone_data)) as [HI|Hn].
  - destruct (in_names_nth_error _ _ HI) as (k & repo & Hk & <-).
    assert (HI' : In repo clone_data')
      by (eapply Permutation_in; [exact HP|eapply nth_error_In; exact Hk]).
    apply In_nth_error in HI'. destruct HI' as [k' Hk'].
    destruct (reconcile_from_view clock _ 0 st k repo Hnd Hk) as [-> ->].
    destruct (reconcile_from_view clock _ 0 st k' repo Hnd' Hk') as [-> ->].
    split; [reflexivity|].
    intros Hconst. now rewrite (Hconst (0 + k)%nat (0 + k')%nat).
  - assert (Hn' : ~ In name (map repo_name clone_data')).
    { intros HI. apply Hn. eapply Permutation_in; [|exact HI].
      apply Permutation_map. now apply Permutation_sym. }
    destruct (reconcile_from_other clock name _ 0 st Hn) as [-> ->].
    destruct (reconcile_from_other clock name _ 0 st Hn') as [-> ->].
    tauto.
Qed.

Lemma fresh_counts_perm entries entries' ledger :
  Permutation entries entries' ->
  sum (fresh_counts entries ledger) = sum (fresh_counts entries' ledger).
Proof.
  intros HP. apply sum_perm. unfold fresh_counts.
  apply Permutation_map.
  induction HP; simpl.
  - constructor.
  - destruct x as [d s]. destruct (negb (Dict.contains d ledger));
      [now constructor|assumption].
  - destruct x as [d s], y as [d' s'].
    destruct (negb (Dict.contains d ledger)),
             (negb (Dict.contains d' ledger));
      try reflexivity. apply perm_swap.
  - etransitivity; eassumption.
Qed.

(** Two reports with the same days in another order write the same totals
    and equivalent ledgers. *)
Lemma repo_step_same_days c r1 r2 st :
  same_days r1 r2 -> Dict.wf (daily_breakdown r1) ->
  Dict.get (repo_name r1) (fst (repo_step c r1 st)) =
  Dict.get (repo_name r1) (fst (repo_step c r2 st)) /\
  ledgers_eq (Dict.get (repo_name r1) (snd (repo_step c r1 st)))
             (Dict.get (repo_name r1) (snd (repo_step c r2 st))).
Proof.
  intros (Hts & Hd & Hn & Hpc & Hpu & HP) Hwf.
  assert (Hwf2 : Dict.wf (daily_breakdown r2)).
  { unfold Dict.wf, Dict.keys in *.
    eapply Permutation_NoDup; [apply Permutation_map; exact HP|exact Hwf]. }
  unfold repo_step. simpl. rewrite <- Hn, <- Hts, <- Hpu, !get_set_same.
  split.
  - do 2 f_equal. rewrite !add_days_total by assumption.
    f_equal. now apply fresh_counts_perm.
  - simpl. intros k.
    rewrite (get_filter_key (fun day => str_ge day c)).
    rewrite (get_filter_key (fun day => str_ge day c)).
    rewrite !add_days_get, (equiv_of_perm _ _ Hwf HP k). reflexivity.
Qed.

Lemma same_days_nth_error l1 : forall l2 k r1,
  Forall2 same_days l1 l2 -> nth_error l1 k = Some r1 ->
  exists r2, nth_error l2 k = Some r2 /\ same_days r1 r2.
Proof.
  induction l1 as [|a l1 IH]; intros l2 k r1 HF Hk.
  - destruct k; discriminate.
  - inversion HF as [|? b ? l2' Hab HF']; subst.
    destruct k as [|k]; simpl in *.
    + injection Hk as ->. now exists b.
    + now apply IH.
Qed.

Lemma same_days_names l1 l2 :
  Forall2 same_days l1 l2 -> map repo_name l1 = map repo_name l2.
Proof.
  induction 1 as [|a b l1 l2 Hab _ IH]; simpl; [reflexivity|].
  destruct Hab as (_ & _ & -> & _). now rewrite IH.
Qed.

Lemma ledgers_eq_refl o : ledgers_eq o o.
Proof. destruct o; simpl; [intros k; reflexivity|exact I]. Qed.

(** With pairwise distinct names, reordering the days inside the reports
    changes neither the totals nor the ledgers as dictionaries. *)
Lemma reconcile_same_days clock clone_data clone_data' st :
  NoDup (map repo_name clone_data) ->
  Forall (fun r => Dict.wf (daily_breakdown r)) clone_data ->
  Forall2 same_days clone_data clone_data' ->
  state_eq (reconcile_from clock 0 clone_data st)
           (reconcile_from clock 0 clone_data' st).
Proof.
  intros Hnd Hwf HF.
  pose proof (same_days_names _ _ HF) as Hnames.
  assert (Hnd' : NoDup (map repo_name clone_data')) by now rewrite <- Hnames.
  assert (Hview : forall name,
    Dict.get name (fst (reconcile_from clock 0 clone_data st)) =
    Dict.get name (fst (reconcile_from clock 0 clone_data' st)) /\
    ledgers_eq (Dict.get name (snd (reconcile_from clock 0 clone_data st)))
               (Dict.get name (snd (reconcile_from clock 0 clone_data' st)))).
  { intros name.
    destruct (in_dec string_dec name (map repo_name clone_data)) as [HI|Hn].
    - destruct (in_names_nth_error _ _ HI) as (k & r1 & Hk & <-).
      destruct (same_days_nth_error _ _ _ _ HF Hk) as (r2 & Hk2 & Hsame).
      assert (Hwf1 : Dict.wf (daily_breakdown r1)).
      { rewrite Forall_forall in Hwf. apply Hwf.
        eapply nth_error_In; exact Hk. }
      destruct (reconcile_from_view clock _ 0 st k r1 Hnd Hk) as [-> ->].
      assert (Hn12 : repo_name r1 = repo_name r2) by apply Hsame.
      rewrite Hn12 at 2 4.
      destruct (reconcile_from_view clock _ 0 st k r2 Hnd' Hk2) as [-> ->].
      rewrite <- Hn12. now apply repo_step_same_days.
    - assert (Hn' : ~ In name (map repo_name clone_data'))
        by now rewrite <- Hnames.
      destruct (reconcile_from_other clock name _ 0 st Hn) as [-> ->].
      destruct (reconcile_from_other clock name _ 0 st Hn') as [-> ->].
      split; [reflexivity|apply ledgers_eq_refl]. }
  split; intros name; apply Hview.
Qed.

(** ** One day in the reports *)

Lemma get_drop_day day k (entries : dict DayStats) :
  Dict.get k (drop_day day entries) =
  if String.eqb k day then None else Dict.get k entries.
Proof.
  unfold drop_day.
  rewrite (get_filter_key (fun d => negb (String.eqb d day))).
  destruct (String.eqb k day); reflexivity.
Qed.

Lemma agree_off_contains day l1 l2 k :
  agree_off day l1 l2 -> k <> day -> Dict.contains k l1 = Dict.contains k l2.
Proof. intros H Hk. unfold Dict.contains. now rewrite (H k Hk). Qed.

Lemma agree_off_set day l1 l2 d (v : DayStats) :
  agree_off day l1 l2 -> agree_off day (Dict.set d v l1) (Dict.set d v l2).
Proof. intros H k Hk. rewrite !get_set, (H k Hk). reflexivity. Qed.

Lemma agree_off_set_day day l1 l2 (v : DayStats) :
  agree_off day l1 l2 -> agree_off day (Dict.set day v l1) l2.
Proof. intros H k Hk. rewrite get_set_other by assumption. now apply H. Qed.

(** What the inner loop adds with and without the entry for [day]. *)
Lemma add_days_without day entries : forall l1 l2 t1 t2,
  agree_off day l1 l2 ->
  snd (add_days entries l1 t1) - t1 =
  snd (add_days (drop_day day entries) l2 t2) - t2 +
  (if Dict.contains day l1 then 0 else reported_count day entries).
Proof.
  unfold reported_count.
  induction entries as [|[d s] rest IH]; intros l1 l2 t1 t2 Hag; simpl.
  - destruct (Dict.contains day l1); lia.
  - destruct (String.eqb_spec d day) as [->|Hne]; simpl.
    + rewrite String.eqb_refl.
      destruct (Dict.contains day l1) eqn:Ec.
      * pose proof (IH l1 l2 t1 t2 Hag) as H. rewrite Ec in H. lia.
      * pose proof (IH (Dict.set day (snapshot s) l1) l2 (t1 + count s) t2
                      (agree_off_set_day day l1 l2 _ Hag)) as H.
        rewrite contains_set, String.eqb_refl in H. simpl in H. lia.
    + assert (Hday : String.eqb day d = false)
        by (apply String.eqb_neq; congruence).
      rewrite Hday, <- (agree_off_contains day l1 l2 d Hag Hne).
      destruct (Dict.contains d l1).
      * apply IH; assumption.
      * pose proof (IH (Dict.set d (snapshot s) l1) (Dict.set d (snapshot s) l2)
                      (t1 + count s) (t2 + count s)
                      (agree_off_set day l1 l2 d _ Hag)) as H.
        rewrite contains_set, Hday in H. simpl in H. lia.
Qed.

(** A day that the ledger has makes its entry in the breakdown irrelevant. *)
Lemma add_days_present day entries : forall l t,
  Dict.contains day l = true ->
  add_days (drop_day day entries) l t = add_days entries l t.
Proof.
  induction entries as [|[d s] rest IH]; intros l t Hc; simpl; [reflexivity|].
  destruct (String.eqb_spec d day) as [->|Hne]; simpl.
  - rewrite Hc. now apply IH.
  - destruct (Dict.contains d l); apply IH; [assumption|].
    rewrite contains_set, Hc. apply orb_true_r.
Qed.

Lemma ledger_of_step_same c repo st :
  ledger_of (repo_name repo) (repo_step c repo st) =
  filter (fun '(day, _) => str_ge day c)
    (fst (add_days (daily_breakdown repo) (ledger_of (repo_name repo) st)
            match Dict.get (repo_name repo) (fst st) with
            | Some t => total_clones t
            | None => 0
            end)).
Proof.
  unfold ledger_of at 1. unfold repo_step. simpl. rewrite get_set_same.
  destruct (Dict.get (repo_name repo) (fst st)); reflexivity.
Qed.

Lemma get_ledger_of_step_same c repo st k :
  Dict.get k (ledger_of (repo_name repo) (repo_step c repo st)) =
  if str_ge k c then
    match Dict.get k (ledger_of (repo_name repo) st) with
    | Some v => Some v
    | None => option_map snapshot (Dict.get k (daily_breakdown repo))
    end
  else None.
Proof.
  rewrite ledger_of_step_same, (get_filter_key (fun day => str_ge day c)).
  now rewrite add_days_get.
Qed.

Lemma get_ledger_of_step_named c repo st name k :
  repo_name repo = name ->
  Dict.get k (ledger_of name (repo_step c repo st)) =
  if str_ge k c then
    match Dict.get k (ledger_of name st) with
    | Some v => Some v
    | None => option_map snapshot (Dict.get k (daily_breakdown repo))
    end
  else None.
Proof. intros <-. apply get_ledger_of_step_same. Qed.

Lemma repo_step_clones_total_named c repo st name :
  repo_name repo = name ->
  clones_total name (repo_step c repo st) =
  snd (add_days (daily_breakdown repo) (ledger_of name st)
         (clones_total name st)).
Proof. intros <-. apply repo_step_clones_total. Qed.

Lemma without_date_same name day repo :
  repo_name repo = name ->
  without_date name day repo =
  mkRepoData (timestamp repo) (date repo) (repo_name repo)
    (period_clones repo) (period_unique repo)
    (drop_day day (daily_breakdown repo)).
Proof. intros <-. unfold without_date. now rewrite String.eqb_refl. Qed.

Lemma without_date_other name day repo :
  repo_name repo <> name -> without_date name day repo = repo.
Proof.
  intros H. unfold without_date. apply String.eqb_neq in H. now rewrite H.
Qed.

Lemma contribution_one name day repo st :
  contribution name day [repo] st =
  if String.eqb (repo_name repo) name then
    if Dict.contains day (ledger_of name st) then 0
    else reported_count day (daily_breakdown repo)
  else 0.
Proof.
  unfold contribution, reported_count. simpl.
  destruct (String.eqb (repo_name repo) name),
           (Dict.contains day (ledger_of name st)); try reflexivity.
  destruct (Dict.get day (daily_breakdown repo)); reflexivity.
Qed.

(** One iteration on two states whose ledgers of [name] agree off [day],
    with and without the entry of the report for [day]. *)
Lemma repo_step_without name day c repo st st2 :
  agree_off day (ledger_of name st) (ledger_of name st2) ->
  agree_off day (ledger_of name (repo_step c repo st))
    (ledger_of name (repo_step c (without_date name day repo) st2)) /\
  clones_total name (repo_step c repo st) - clones_total name st =
  clones_total name (repo_step c (without_date name day repo) st2) -
  clones_total name st2 + contribution name day [repo] st.
Proof.
  intros Hag. rewrite contribution_one.
  destruct (String.eqb_spec (repo_name repo) name) as [Hn|Hn].
  - rewrite (without_date_same name day repo Hn).
    set (repo' := mkRepoData _ _ _ _ _ _).
    assert (Hn' : repo_name repo' = name) by exact Hn.
    split.
    + intros k Hk.
      rewrite (get_ledger_of_step_named c repo st name k Hn).
      rewrite (get_ledger_of_step_named c repo' st2 name k Hn'). simpl.
      rewrite (Hag k Hk), get_drop_day.
      apply String.eqb_neq in Hk. now rewrite Hk.
    + rewrite (repo_step_clones_total_named c repo st name Hn).
      rewrite (repo_step_clones_total_named c repo' st2 name Hn'). simpl.
      now apply add_days_without.
  - rewrite (without_date_other name day repo Hn).
    rewrite !ledger_of_step_other, !clones_total_step_other by congruence.
    split; [assumption|lia].
Qed.

Lemma repo_step_contains_day name day c repo st :
  str_ge day c = true ->
  Dict.contains day (ledger_of name (repo_step c repo st)) =
  Dict.contains day (ledger_of name st) ||
  (String.eqb (repo_name repo) name &&
   Dict.contains day (daily_breakdown repo)).
Proof.
  intros Hc. destruct (String.eqb_spec (repo_name repo) name) as [<-|Hn].
  - unfold Dict.contains. rewrite get_ledger_of_step_same, Hc.
    destruct (Dict.get day (ledger_of (repo_name repo) st)); [reflexivity|].
    destruct (Dict.get day (daily_breakdown repo)); reflexivity.
  - rewrite ledger_of_step_other by congruence. now rewrite orb_false_r.
Qed.

Lemma contribution_cons name day c repo rest st :
  str_ge day c = true ->
  contribution name day (repo :: rest) st =
  contribution name day [repo] st +
  contribution name day rest (repo_step c repo st).
Proof.
  intros Hc. rewrite contribution_one. unfold contribution, reported_count.
  rewrite (repo_step_contains_day name day c repo st Hc). simpl.
  unfold Dict.contains.
  destruct (String.eqb (repo_name repo) name),
           (Dict.get day (ledger_of name st)),
           (Dict.get day (daily_breakdown repo)),
           (first_reported name day rest); simpl; lia.
Qed.

Lemma reconcile_from_without name day clock clone_data : forall i st st2,
  (forall j, str_ge day (clock j) = true) ->
  agree_off day (ledger_of name st) (ledger_of name st2) ->
  agree_off day
    (ledger_of name (reconcile_from clock i clone_data st))
    (ledger_of name
       (reconcile_from clock i (map (without_date name day) clone_data) st2)) /\
  clones_total name (reconcile_from clock i clone_data st) -
  clones_total name st =
  clones_total name
    (reconcile_from clock i (map (without_date name day) clone_data) st2) -
  clones_total name st2 + contribution name day clone_data st.
Proof.
  induction clone_data as [|repo rest IH]; intros i st st2 Hclock Hag; simpl.
  - split; [assumption|]. unfold contribution. simpl.
    destruct (Dict.contains day (ledger_of name st)); lia.
  - destruct (repo_step_without name day (clock i) repo st st2 Hag)
      as [Hag1 Htot1].
    destruct (IH (S i) _ _ Hclock Hag1) as [Hag2 Htot2].
    split; [assumption|].
    rewrite (contribution_cons name day (clock i)) by apply Hclock. lia.
Qed.

Lemma contribution_app name day clock clone_data later : forall i st,
  (forall j, str_ge day (clock j) = true) ->
  contribution name day (clone_data ++ later) st =
  contribution name day clone_data st +
  contribution name day later (reconcile_from clock i clone_data st).
Proof.
  induction clone_data as [|repo rest IH]; intros i st Hclock; simpl.
  - unfold contribution at 2. simpl.
    destruct (Dict.contains day (ledger_of name st)); lia.
  - rewrite (contribution_cons name day (clock i) repo (rest ++ later))
      by apply Hclock.
    rewrite (contribution_cons name day (clock i) repo rest) by apply Hclock.
    rewrite (IH (S i)) by assumption. lia.
Qed.

(** Over any sequence of cycles that keep [day] on or after their cutoff
    dates, the total of [name] is the total of the same cycles without
    [day], plus what [day] contributes once. *)
Lemma reconcile_cycles_without name day cycles : forall st st2,
  (forall c, In c cycles -> forall j, str_ge day (cycle_clock c j) = true) ->
  agree_off day (ledger_of name st) (ledger_of name st2) ->
  clones_total name (reconcile_cycles cycles st) - clones_total name st =
  clones_total name
    (reconcile_cycles (map (cycle_without_date name day) cycles) st2) -
  clones_total name st2 + contribution name day (reports_of cycles) st.
Proof.
  unfold reconcile_cycles, reports_of.
  induction cycles as [|c rest IH]; intros st st2 Hclock Hag; simpl.
  - unfold contribution. simpl.
    destruct (Dict.contains day (ledger_of name st)); lia.
  - assert (Hc : forall j, str_ge day (cycle_clock c j) = true)
      by (apply Hclock; now left).
    destruct (reconcile_from_without name day (cycle_clock c) (cycle_batch c)
                0 st st2 Hc Hag) as [Hag1 Htot1].
    specialize (IH _ _ (fun c' H => Hclock c' (or_intror H)) Hag1).
    rewrite (contribution_app name day (cycle_clock c) (cycle_batch c) _ 0 st Hc).
    lia.
Qed.

(** ** A day that the ledger already has *)

Lemma repo_step_present name day c repo st :
  Dict.contains day (ledger_of name st) = true ->
  repo_step c (without_date name day repo) st = repo_step c repo st.
Proof.
  intros Hc. destruct (string_dec (repo_name repo) name) as [Hn|Hn].
  - rewrite (without_date_same name day repo Hn).
    unfold repo_step. simpl. rewrite Hn.
    now rewrite (add_days_present day _ _ _ Hc).
  - now rewrite without_date_other.
Qed.

Lemma repo_step_keeps_day name day c repo st v :
  str_ge day c = true ->
  Dict.get day (ledger_of name st) = Some v ->
  Dict.get day (ledger_of name (repo_step c repo st)) = Some v.
Proof.
  intros Hc Hv. destruct (string_dec (repo_name repo) name) as [Hn|Hn].
  - now rewrite (get_ledger_of_step_named c repo st name day Hn), Hc, Hv.
  - now rewrite ledger_of_step_other by congruence.
Qed.

Lemma contains_of_get {V} k (d : dict V) v :
  Dict.get k d = Some v -> Dict.contains k d = true.
Proof. unfold Dict.contains. now intros ->. Qed.

Lemma reconcile_from_present name day v clock clone_data : forall i st,
  (forall j, str_ge day (clock j) = true) ->
  Dict.get day (ledger_of name st) = Some v ->
  reconcile_from clock i (map (without_date name day) clone_data) st =
  reconcile_from clock i clone_data st /\
  Dict.get day (ledger_of name (reconcile_from clock i clone_data st)) = Some v.
Proof.
  induction clone_data as [|repo rest IH]; intros i st Hclock Hv; simpl;
    [tauto|].
  rewrite (repo_step_present name day (clock i) repo st
             (contains_of_get _ _ _ Hv)).
  apply IH; [assumption|]. now apply repo_step_keeps_day.
Qed.

Lemma reconcile_cycles_present name day v cycles : forall st,
  (forall c, In c cycles -> forall j, str_ge day (cycle_clock c j) = true) ->
  Dict.get day (ledger_of name st) = Some v ->
  reconcile_cycles (map (cycle_without_date name day) cycles) st =
  reconcile_cycles cycles st /\
  Dict.get day (ledger_of name (reconcile_cycles cycles st)) = Some v.
Proof.
  unfold reconcile_cycles.
  induction cycles as [|c rest IH]; intros st Hclock Hv; simpl; [tauto|].
  destruct (reconcile_from_present name day v (cycle_clock c) (cycle_batch c)
              0 st (Hclock c (or_introl eq_refl)) Hv) as [-> Hv'].
  apply IH; [|assumption]. intros c' H. apply Hclock. now right.
Qed.

(** The first report of a day that the ledger lacks puts its snapshot in the
    ledger. *)
Lemma reconcile_from_first_seen name day s clock clone_data : forall i st,
  (forall j, str_ge day (clock j) = true) ->
  Dict.contains day (ledger_of name st) = false ->
  first_reported name day clone_data = Some s ->
  Dict.get day (ledger_of name (reconcile_from clock i clone_data st)) =
  Some (snapshot s).
Proof.
  induction clone_data as [|repo rest IH]; intros i st Hclock Hc Hs; simpl in *;
    [discriminate|].
  assert (Hnone : Dict.get day (ledger_of name st) = None).
  { unfold Dict.contains in Hc.
    destruct (Dict.get day (ledger_of name st)); [discriminate|reflexivity]. }
  destruct (String.eqb_spec (repo_name repo) name) as [Hn|Hn].
  - destruct (Dict.get day (daily_breakdown repo)) as [s'|] eqn:Es.
    + injection Hs as ->.
      apply reconcile_from_present; [assumption|].
      now rewrite (get_ledger_of_step_named _ _ _ _ _ Hn), Hclock, Hnone, Es.
    + apply IH; try assumption.
      unfold Dict.contains.
      now rewrite (get_ledger_of_step_named _ _ _ _ _ Hn), Hclock, Hnone, Es.
  - apply IH; try assumption. now rewrite ledger_of_step_other by congruence.
Qed.

(** A run of [main] acts on the persisted pair as one cycle over the batch
    it fetched. *)
Lemma main_reconciles env clock fs clone_data timestamp today :
  get_clone_stats env = Ok (clone_data, timestamp, today) ->
  let before := load_historical_data fs in
  let after := load_historical_data (fst (fst (main env clock fs))) in
  (cumulative_totals after, daily_records after) =
  reconcile_from clock 0 clone_data
    (cumulative_totals before, daily_records before).
Proof.
  intros Hfetch. unfold main. rewrite Hfetch.
  destruct clone_data as [|r0 rest]; [reflexivity|].
  rewrite calculate_cumulative_totals_spec.
  destruct (reconcile_from _ _ _ _) as [cumulative daily]. reflexivity.
Qed.


(** ** Claims *)

(** C1 (no double-count).  Take any repository, any date and any sequence of
    cycles whose cutoff dates are all on or before that date.  The
    [total_clones] of the repository after the cycles is its total after the
    same cycles with the date taken out of its reports, plus one
    contribution of the date: the count of its first report, or nothing when
    the ledger had the date from the start.  Later reports of the date add
    nothing, however many there are. *)
Theorem no_double_count cycles st name day :
  (forall c, In c cycles -> forall i, str_ge day (cycle_clock c i) = true) ->
  exists st1 st2,
    run_cycles cycles st = Ok st1 /\
    run_cycles (map (cycle_without_date name day) cycles) st = Ok st2 /\
    clones_total name st1 =
    clones_total name st2 + contribution name day (reports_of cycles) st.
Proof.
  intros Hclock. rewrite !run_cycles_spec.
  do 2 eexists. do 2 (split; [reflexivity|]).
  pose proof (reconcile_cycles_without name day cycles st st Hclock
                (fun k _ => eq_refl)).
  lia.
Qed.

Lemma no_double_count_witness :
  let clock := fun _ : nat => "2023-12-04" in
  let cycles :=
    [mkCycle clock
       [mkRepoData "2024-01-02 06:00:00" "2024-01-02" "X" 8 5
          [("2024-01-01", mkDayStats 3 2); ("2024-01-02", mkDayStats 5 4)]]
       "2024-01-02";
     mkCycle clock
       [mkRepoData "2024-01-03 06:00:00" "2024-01-03" "X" 108 6
          [("2024-01-02", mkDayStats 99 99); ("2024-01-03", mkDayStats 1 1)]]
       "2024-01-03";
     mkCycle clock
       [mkRepoData "2024-01-04 06:00:00" "2024-01-04" "X" 12 6
          [("2024-01-02", mkDayStats 7 7); ("2024-01-03", mkDayStats 1 1);
           ("2024-01-04", mkDayStats 4 3)]]
       "2024-01-04"] in
  exists st1 st2,
    run_cycles cycles ([], []) = Ok st1 /\
    run_cycles (map (cycle_without_date "X" "2024-01-02") cycles) ([], []) =
      Ok st2 /\
    clones_total "X" st1 =
    clones_total "X" st2 +
    contribution "X" "2024-01-02" (reports_of cycles) ([], []).
Proof.
  intros clock cycles.
  apply (no_double_count cycles ([], []) "X" "2024-01-02").
  intros c [<-|[<-|[<-|[]]]] i; reflexivity.
Defined.

(** C2 (first-seen wins).  Let a cycle be the first to report a date for a
    repository whose ledger lacks it, and let any cycles follow, the date
    staying on or after every cutoff date.  The first cycle stores the
    snapshot it saw; whatever the later reports carry for that date, the
    later cycles return exactly the state they return when the date is taken
    out of those reports, and the stored snapshot is still the first one. *)
Theorem first_seen_wins first later st name day s :
  (forall i, str_ge day (cycle_clock first i) = true) ->
  (forall c, In c later -> forall i, str_ge day (cycle_clock c i) = true) ->
  Dict.contains day (ledger_of name st) = false ->
  first_reported name day (cycle_batch first) = Some s ->
  exists st1 st',
    run_cycle first st = Ok st1 /\
    Dict.get day (ledger_of name st1) = Some (snapshot s) /\
    run_cycles later st1 = Ok st' /\
    run_cycles (map (cycle_without_date name day) later) st1 = Ok st' /\
    Dict.get day (ledger_of name st') = Some (snapshot s).
Proof.
  intros Hfirst Hlater Hfresh Hs.
  rewrite run_cycle_spec.
  pose proof (reconcile_from_first_seen name day s (cycle_clock first)
                (cycle_batch first) 0 st Hfirst Hfresh Hs) as Hseen.
  destruct (reconcile_cycles_present name day (snapshot s) later _ Hlater Hseen)
    as [Heq Hkept].
  do 2 eexists. split; [reflexivity|]. split; [exact Hseen|].
  rewrite !run_cycles_spec, Heq. auto.
Qed.

Lemma first_seen_wins_witness :
  let clock := fun _ : nat => "2023-12-04" in
  let first :=
    mkCycle clock
      [mkRepoData "2024-01-02 06:00:00" "2024-01-02" "X" 8 5
         [("2024-01-01", mkDayStats 3 2); ("2024-01-02", mkDayStats 5 4)]]
      "2024-01-02" in
  let later :=
    [mkCycle clock
       [mkRepoData "2024-01-03 06:00:00" "2024-01-03" "X" 108 6
          [("2024-01-02", mkDayStats 99 99); ("2024-01-03", mkDayStats 1 1)]]
       "2024-01-03"] in
  exists st1 st',
    run_cycle first ([], []) = Ok st1 /\
    Dict.get "2024-01-02" (ledger_of "X" st1) = Some (snapshot (mkDayStats 5 4)) /\
    run_cycles later st1 = Ok st' /\
    run_cycles (map (cycle_without_date "X" "2024-01-02") later) st1 = Ok st' /\
    Dict.get "2024-01-02" (ledger_of "X" st') = Some (snapshot (mkDayStats 5 4)).
Proof.
  intros clock first later.
  apply (first_seen_wins first later ([], []) "X" "2024-01-02" (mkDayStats 5 4)).
  - intros i. reflexivity.
  - intros c [<-|[]] i. reflexivity.
  - reflexivity.
  - reflexivity.
Defined.

(** C3 (the two-cycle scenario).  From the empty prior state, with all of
    2024-01-01 .. 2024-01-03 on or after the cutoff date of both cycles, the
    first report of "X" gives [total_clones] 8, [total_unique] 5 and a ledger
    with both dates; the second report then gives [total_clones] 9 and
    [total_unique] 6. *)
Theorem concrete_scenario clock1 clock2 ts1 ts2 date1 date2 pc1 pc2
    today1 today2 :
  (forall i, str_ge "2024-01-01" (clock1 i) = true) ->
  (forall i, str_ge "2024-01-01" (clock2 i) = true) ->
  let cycle1 :=
    [mkRepoData ts1 date1 "X" pc1 5
       [("2024-01-01", mkDayStats 3 2); ("2024-01-02", mkDayStats 5 4)]] in
  let cycle2 :=
    [mkRepoData ts2 date2 "X" pc2 6
       [("2024-01-02", mkDayStats 99 99); ("2024-01-03", mkDayStats 1 1)]] in
  exists st1 st2,
    calculate_cumulative_totals clock1 cycle1 (mkHistorical [] [] None) today1 =
      Ok st1 /\
    clones_total "X" st1 = 8 /\
    unique_total "X" st1 = 5 /\
    Dict.get "2024-01-01" (ledger_of "X" st1) = Some (mkDayStats 3 2) /\
    Dict.get "2024-01-02" (ledger_of "X" st1) = Some (mkDayStats 5 4) /\
    calculate_cumulative_totals clock2 cycle2
      (mkHistorical (fst st1) (snd st1) (Some ts1)) today2 = Ok st2 /\
    clones_total "X" st2 = 9 /\
    unique_total "X" st2 = 6 /\
    Dict.get "2024-01-02" (ledger_of "X" st2) = Some (mkDayStats 5 4) /\
    Dict.get "2024-01-03" (ledger_of "X" st2) = Some (mkDayStats 1 1).
Proof.
  intros H1 H2 cycle1 cycle2.
  assert (B1 : str_ge "2024-01-01" (clock2 0%nat) = true) by apply H2.
  assert (B2 : str_ge "2024-01-02" (clock2 0%nat) = true)
    by (eapply str_ge_trans; [|apply H2]; reflexivity).
  assert (B3 : str_ge "2024-01-03" (clock2 0%nat) = true)
    by (eapply str_ge_trans; [|apply H2]; reflexivity).
  assert (A1 : str_ge "2024-01-01" (clock1 0%nat) = true) by apply H1.
  assert (A2 : str_ge "2024-01-02" (clock1 0%nat) = true)
    by (eapply str_ge_trans; [|apply H1]; reflexivity).
  do 2 eexists.
  split; [apply calculate_cumulative_totals_spec|].
  cbn -[str_ge calculate_cumulative_totals]. rewrite A1, A2.
  cbn -[str_ge calculate_cumulative_totals].
  do 4 (split; [reflexivity|]).
  split; [apply calculate_cumulative_totals_spec|].
  cbn -[str_ge]. rewrite B1, B2, B3. cbn -[str_ge].
  repeat split; reflexivity.
Qed.

Lemma concrete_scenario_witness :
  let clock := fun _ : nat => "2023-12-04" in
  let cycle1 :=
    [mkRepoData "2024-01-02 06:00:00" "2024-01-02" "X" 8 5
       [("2024-01-01", mkDayStats 3 2); ("2024-01-02", mkDayStats 5 4)]] in
  let cycle2 :=
    [mkRepoData "2024-01-03 06:00:00" "2024-01-03" "X" 108 6
       [("2024-01-02", mkDayStats 99 99); ("2024-01-03", mkDayStats 1 1)]] in
  exists st1 st2,
    calculate_cumulative_totals clock cycle1 (mkHistorical [] [] None)
      "2024-01-02" = Ok st1 /\
    clones_total "X" st1 = 8 /\
    unique_total "X" st1 = 5 /\
    Dict.get "2024-01-01" (ledger_of "X" st1) = Some (mkDayStats 3 2) /\
    Dict.get "2024-01-02" (ledger_of "X" st1) = Some (mkDayStats 5 4) /\
    calculate_cumulative_totals clock cycle2
      (mkHistorical (fst st1) (snd st1) (Some "2024-01-02 06:00:00"))
      "2024-01-03" = Ok st2 /\
    clones_total "X" st2 = 9 /\
    unique_total "X" st2 = 6 /\
    Dict.get "2024-01-02" (ledger_of "X" st2) = Some (mkDayStats 5 4) /\
    Dict.get "2024-01-03" (ledger_of "X" st2) = Some (mkDayStats 1 1).
Proof.
  intros clock cycle1 cycle2.
  apply (concrete_scenario clock clock "2024-01-02 06:00:00"
           "2024-01-03 06:00:00" "2024-01-02" "2024-01-03" 8 108
           "2024-01-02" "2024-01-03");
    intros i; reflexivity.
Defined.

(** C4, as stated, fails when the clock moves during the loop: the cutoff
    date is read in every iteration (line 166), so with cutoff 2024-01-01 in
    the first iteration and 2024-01-02 afterwards, the report that is
    processed second loses its entry of 2024-01-01, and the two orders of
    the batch give different ledgers. *)
Lemma moving_clock_breaks_order_independence :
  let clock := fun i : nat =>
    match i with O => "2024-01-01" | S _ => "2024-01-02" end in
  let a :=
    mkRepoData "2024-01-31 23:59:59" "2024-01-31" "A" 3 2
      [("2024-01-01", mkDayStats 3 2)] in
  let b :=
    mkRepoData "2024-01-31 23:59:59" "2024-01-31" "B" 5 4
      [("2024-01-01", mkDayStats 5 4)] in
  exists st st',
    calculate_cumulative_totals clock [a; b] (mkHistorical [] [] None)
      "2024-01-31" = Ok st /\
    calculate_cumulative_totals clock [b; a] (mkHistorical [] [] None)
      "2024-01-31" = Ok st' /\
    Dict.get "A" (snd st) = Some [("2024-01-01", mkDayStats 3 2)] /\
    Dict.get "A" (snd st') = Some [] /\
    Dict.get "B" (snd st) = Some [] /\
    Dict.get "B" (snd st') = Some [("2024-01-01", mkDayStats 5 4)].
Proof. do 2 eexists. repeat split; reflexivity. Qed.

(** C4 (order independence), amended to the clock that the loop reads.  For
    a batch of reports with pairwise distinct names, any clock and any prior
    state: reconciling the reports in another order gives the same
    [cumulative_totals] as a dictionary, and the same [daily_records] when
    the clock shows one cutoff date throughout the cycle; reordering the
    days inside the breakdowns gives states that are equal as dictionaries,
    so every repository has the same [total_clones]. *)
Theorem order_independence clock batch batch1 batch2 historical_data today :
  NoDup (map repo_name batch) ->
  Forall (fun r => Dict.wf (daily_breakdown r)) batch ->
  Permutation batch batch1 ->
  Forall2 same_days batch1 batch2 ->
  exists st st1 st2,
    calculate_cumulative_totals clock batch historical_data today = Ok st /\
    calculate_cumulative_totals clock batch1 historical_data today = Ok st1 /\
    calculate_cumulative_totals clock batch2 historical_data today = Ok st2 /\
    Dict.equiv (fst st) (fst st1) /\
    ((forall i j, clock i = clock j) -> Dict.equiv (snd st) (snd st1)) /\
    state_eq st1 st2 /\
    forall name, clones_total name st1 = clones_total name st2.
Proof.
  intros Hnd Hwf HP HF. rewrite !calculate_cumulative_totals_spec.
  set (prior := (cumulative_totals historical_data,
                 daily_records historical_data)).
  assert (Hnd1 : NoDup (map repo_name batch1))
    by (eapply Permutation_NoDup; [apply Permutation_map; exact HP|exact Hnd]).
  assert (Hwf1 : Forall (fun r => Dict.wf (daily_breakdown r)) batch1)
    by (eapply Permutation_Forall; eassumption).
  pose proof (reconcile_same_days clock batch1 batch2 prior Hnd1 Hwf1 HF)
    as Heq.
  do 3 eexists. do 3 (split; [reflexivity|]).
  split; [|split; [|split]].
  - intros name. apply (reconcile_perm clock batch batch1 prior name Hnd HP).
  - intros Hconst name.
    now apply (reconcile_perm clock batch batch1 prior name Hnd HP).
  - exact Heq.
  - intros name. unfold clones_total. destruct Heq as [Heq _].
    now rewrite (Heq name).
Qed.

Lemma order_independence_witness :
  let clock := fun i : nat =>
    match i with O => "2023-12-04" | S _ => "2023-12-05" end in
  let a :=
    mkRepoData "2024-01-03 23:59:59" "2024-01-03" "A" 8 5
      [("2024-01-01", mkDayStats 3 2); ("2024-01-02", mkDayStats 5 4)] in
  let b :=
    mkRepoData "2024-01-03 23:59:59" "2024-01-03" "B" 3 2
      [("2024-01-01", mkDayStats 1 1); ("2024-01-02", mkDayStats 2 1)] in
  let b' :=
    mkRepoData "2024-01-03 23:59:59" "2024-01-03" "B" 3 2
      [("2024-01-02", mkDayStats 2 1); ("2024-01-01", mkDayStats 1 1)] in
  let historical_data :=
    mkHistorical
      [("B", mkRepoTotals 2 1 "2024-01-02 06:00:00" (Some "2024-01-02 06:00:00"))]
      [("B", [("2024-01-01", mkDayStats 2 1)])]
      (Some "2024-01-02 06:00:00") in
  exists st st1 st2,
    calculate_cumulative_totals clock [a; b] historical_data "2024-01-03" =
      Ok st /\
    calculate_cumulative_totals clock [b; a] historical_data "2024-01-03" =
      Ok st1 /\
    calculate_cumulative_totals clock [b'; a] historical_data "2024-01-03" =
      Ok st2 /\
    Dict.equiv (fst st) (fst st1) /\
    ((forall i j, clock i = clock j) -> Dict.equiv (snd st) (snd st1)) /\
    state_eq st1 st2 /\
    forall name, clones_total name st1 = clones_total name st2.
Proof.
  intros clock a b b' historical_data.
  apply (order_independence clock [a; b] [b; a] [b'; a]
           historical_data "2024-01-03").
  - repeat constructor; simpl; intuition discriminate.
  - repeat constructor; simpl; intuition discriminate.
  - apply perm_swap.
  - repeat constructor.
Defined.

(** The order of the reports shows in the insertion order of new keys
    only. *)
Example report_order_is_key_order :
  let a := mkRepoData "2024-01-03 06:00:00" "2024-01-03" "A" 1 1 [] in
  let b := mkRepoData "2024-01-03 06:00:00" "2024-01-03" "B" 2 1 [] in
  let run batch :=
    calculate_cumulative_totals (fun _ => "2023-12-04") batch
      (mkHistorical [] [] None) "2024-01-03" in
  match run [a; b], run [b; a] with
  | Ok st, Ok st' =>
      Dict.keys (fst st) = ["A"; "B"] /\ Dict.keys (fst st') = ["B"; "A"]
  | _, _ => False
  end.
Proof. vm_compute. split; reflexivity. Qed.

(** C5, as stated, fails: a repository that the batch does not report is not
    pruned.  With cutoff date 2024-01-05 and a batch that reports only "B",
    the ledger of "A" still holds its entry of 2023-11-30 after the cycle. *)
Lemma pruning_skips_absent_repositories :
  exists st',
    calculate_cumulative_totals (fun _ => "2024-01-05")
      [mkRepoData "2024-02-04 06:00:00" "2024-02-04" "B" 4 2
         [("2024-02-03", mkDayStats 4 2)]]
      (mkHistorical
         [("A", mkRepoTotals 7 3 "2023-11-01 06:00:00" (Some "2023-12-01 06:00:00"))]
         [("A", [("2023-11-30", mkDayStats 7 3)])]
         (Some "2023-12-01 06:00:00"))
      "2024-02-04" = Ok st' /\
    Dict.get "2023-11-30" (ledger_of "A" st') = Some (mkDayStats 7 3) /\
    str_ge "2023-11-30" "2024-01-05" = false.
Proof. eexists. split; [reflexivity|]. split; reflexivity. Qed.

(** C5 (retention pruning), amended to the repositories of the batch.  In a
    cycle over reports with pairwise distinct names: the ledger of every
    reported repository afterwards holds exactly the entries, old or newly
    added, whose date is not before the cutoff date read in its iteration;
    [cumulative_totals] is the same whatever the cutoff dates are; and a date
    that was pruned is counted again by a later report of the repository
    that carries it. *)
Theorem retention_pruning clock clone_data historical_data today :
  NoDup (map repo_name clone_data) ->
  let prior :=
    (cumulative_totals historical_data, daily_records historical_data) in
  exists st',
    calculate_cumulative_totals clock clone_data historical_data today = Ok st' /\
    (forall k repo, nth_error clone_data k = Some repo ->
     forall day,
       Dict.get day (ledger_of (repo_name repo) st') =
       if str_ge day (clock k) then
         match Dict.get day (ledger_of (repo_name repo) prior) with
         | Some v => Some v
         | None => option_map snapshot (Dict.get day (daily_breakdown repo))
         end
       else None) /\
    (forall clock',
     exists st'',
       calculate_cumulative_totals clock' clone_data historical_data today =
         Ok st'' /\
       Dict.equiv (fst st'') (fst st')) /\
    (forall k repo day,
       nth_error clone_data k = Some repo ->
       str_ge day (clock k) = false ->
       forall cutoff later,
         repo_name later = repo_name repo ->
         exists st1 st2,
           process_repo cutoff later st' = Ok st1 /\
           process_repo cutoff (without_date (repo_name repo) day later) st' =
             Ok st2 /\
           clones_total (repo_name repo) st1 =
           clones_total (repo_name repo) st2 +
           reported_count day (daily_breakdown later)).
Proof.
  intros Hnd prior. rewrite calculate_cumulative_totals_spec. fold prior.
  eexists. split; [reflexivity|].
  assert (Hledger : forall k repo, nth_error clone_data k = Some repo ->
    forall day,
      Dict.get day (ledger_of (repo_name repo)
                      (reconcile_from clock 0 clone_data prior)) =
      if str_ge day (clock k) then
        match Dict.get day (ledger_of (repo_name repo) prior) with
        | Some v => Some v
        | None => option_map snapshot (Dict.get day (daily_breakdown repo))
        end
      else None).
  { intros k repo Hk day.
    destruct (reconcile_from_view clock clone_data 0 prior k repo Hnd Hk)
      as [_ H2].
    unfold ledger_of at 1. rewrite H2.
    apply (get_ledger_of_step_same (clock k) repo prior day). }
  split; [exact Hledger|]. split.
  - intros clock'. rewrite calculate_cumulative_totals_spec. fold prior.
    eexists. split; [reflexivity|]. intros name.
    destruct (in_dec string_dec name (map repo_name clone_data)) as [HI|Hn].
    + destruct (in_names_nth_error _ _ HI) as (k & repo & Hk & <-).
      destruct (reconcile_from_view clock clone_data 0 prior k repo Hnd Hk)
        as [-> _].
      destruct (reconcile_from_view clock' clone_data 0 prior k repo Hnd Hk)
        as [-> _].
      reflexivity.
    + destruct (reconcile_from_other clock name _ 0 prior Hn) as [-> _].
      destruct (reconcile_from_other clock' name _ 0 prior Hn) as [-> _].
      reflexivity.
  - intros k repo day Hk Hold cutoff later Hname.
    rewrite !process_repo_spec. do 2 eexists. do 2 (split; [reflexivity|]).
    set (st' := reconcile_from clock 0 clone_data prior).
    assert (Hgone : Dict.contains day (ledger_of (repo_name repo) st') = false).
    { unfold Dict.contains. subst st'. now rewrite (Hledger k repo Hk day), Hold. }
    destruct (repo_step_without (repo_name repo) day cutoff later st' st'
                (fun _ _ => eq_refl)) as [_ Htot].
    rewrite contribution_one, Hgone in Htot.
    apply String.eqb_eq in Hname. rewrite Hname in Htot. lia.
Qed.

Lemma retention_pruning_witness :
  let clock := fun _ : nat => "2024-01-05" in
  let clone_data :=
    [mkRepoData "2024-02-04 06:00:00" "2024-02-04" "A" 4 2
       [("2024-02-03", mkDayStats 4 2)]] in
  let historical_data :=
    mkHistorical
      [("A", mkRepoTotals 7 3 "2023-11-01 06:00:00" (Some "2023-12-01 06:00:00"))]
      [("A", [("2023-11-30", mkDayStats 7 3)])]
      (Some "2023-12-01 06:00:00") in
  let prior :=
    (cumulative_totals historical_data, daily_records historical_data) in
  exists st',
    calculate_cumulative_totals clock clone_data historical_data "2024-02-04" =
      Ok st' /\
    (forall k repo, nth_error clone_data k = Some repo ->
     forall day,
       Dict.get day (ledger_of (repo_name repo) st') =
       if str_ge day (clock k) then
         match Dict.get day (ledger_of (repo_name repo) prior) with
         | Some v => Some v
         | None => option_map snapshot (Dict.get day (daily_breakdown repo))
         end
       else None) /\
    (forall clock',
     exists st'',
       calculate_cumulative_totals clock' clone_data historical_data
         "2024-02-04" = Ok st'' /\
       Dict.equiv (fst st'') (fst st')) /\
    (forall k repo day,
       nth_error clone_data k = Some repo ->
       str_ge day (clock k) = false ->
       forall cutoff later,
         repo_name later = repo_name repo ->
         exists st1 st2,
           process_repo cutoff later st' = Ok st1 /\
           process_repo cutoff (without_date (repo_name repo) day later) st' =
             Ok st2 /\
           clones_total (repo_name repo) st1 =
           clones_total (repo_name repo) st2 +
           reported_count day (daily_breakdown later)).
Proof.
  intros clock clone_data historical_data prior.
  apply (retention_pruning clock clone_data historical_data "2024-02-04").
  repeat constructor; simpl; tauto.
Defined.

(** C6 (absent-repo persistence).  A repository that the prior state tracks
    and that no report of the batch names keeps its entry of
    [cumulative_totals] and its ledger of [daily_records] exactly as they
    were: nothing is updated, pruned or deleted. *)
Theorem absent_repo_persistence clock clone_data historical_data today
    name t ledger :
  Dict.get name (cumulative_totals historical_data) = Some t ->
  Dict.get name (daily_records historical_data) = Some ledger ->
  ~ In name (map repo_name clone_data) ->
  exists cumulative daily,
    calculate_cumulative_totals clock clone_data historical_data today =
      Ok (cumulative, daily) /\
    Dict.get name cumulative = Some t /\
    Dict.get name daily = Some ledger.
Proof.
  intros Ht Hl Hn. rewrite calculate_cumulative_totals_spec.
  destruct (reconcile_from_other clock name clone_data 0
              (cumulative_totals historical_data, daily_records historical_data)
              Hn) as [H1 H2].
  destruct (reconcile_from _ _ _ _) as [cumulative daily].
  exists cumulative, daily. simpl in H1, H2. rewrite H1, H2. auto.
Qed.

Lemma absent_repo_persistence_witness :
  exists cumulative daily,
    calculate_cumulative_totals (fun _ => "2024-01-05")
      [mkRepoData "2024-02-04 06:00:00" "2024-02-04" "B" 4 2
         [("2024-02-03", mkDayStats 4 2)]]
      (mkHistorical
         [("A", mkRepoTotals 7 3 "2023-11-01 06:00:00" (Some "2023-12-01 06:00:00"))]
         [("A", [("2023-11-30", mkDayStats 7 3)])]
         (Some "2023-12-01 06:00:00"))
      "2024-02-04" = Ok (cumulative, daily) /\
    Dict.get "A" cumulative =
      Some (mkRepoTotals 7 3 "2023-11-01 06:00:00" (Some "2023-12-01 06:00:00")) /\
    Dict.get "A" daily = Some [("2023-11-30", mkDayStats 7 3)].
Proof.
  apply absent_repo_persistence.
  - reflexivity.
  - reflexivity.
  - simpl. intros [H|[]]. discriminate H.
Defined.

(** C7 (monotonicity).  When every daily count of the reports is
    non-negative, any sequence of cycles returns a state in which no
    repository has a smaller [total_clones] than before (an untracked
    repository counting as 0), and the [total_unique] of every repository is
    the running maximum of its old value and the [period_unique] of each of
    its reports, which is never below the old value.  For one report this is
    [max(old, period_unique)]. *)
Theorem monotonicity cycles st :
  Forall (fun c => nonneg_counts (cycle_batch c)) cycles ->
  exists st',
    run_cycles cycles st = Ok st' /\
    forall name,
      clones_total name st <= clones_total name st' /\
      unique_total name st' =
        high_water (unique_total name st)
          (reported_uniques name (reports_of cycles)) /\
      unique_total name st <= unique_total name st'.
Proof.
  intros Hpos. rewrite run_cycles_spec. eexists. split; [reflexivity|].
  intros name. split; [|split].
  - now apply reconcile_cycles_mono.
  - apply reconcile_cycles_unique.
  - rewrite reconcile_cycles_unique. apply high_water_ge.
Qed.

Lemma monotonicity_witness :
  let st : State :=
    ([("X", mkRepoTotals 8 5 "2024-01-02 06:00:00" (Some "2024-01-02 06:00:00"))],
     [("X", [("2024-01-01", mkDayStats 3 2); ("2024-01-02", mkDayStats 5 4)])]) in
  let cycles :=
    [mkCycle (fun _ => "2023-12-04")
       [mkRepoData "2024-01-03 06:00:00" "2024-01-03" "X" 100 6
          [("2024-01-02", mkDayStats 99 99); ("2024-01-03", mkDayStats 1 1)]]
       "2024-01-03"] in
  exists st',
    run_cycles cycles st = Ok st' /\
    forall name,
      clones_total name st <= clones_total name st' /\
      unique_total name st' =
        high_water (unique_total name st)
          (reported_uniques name (reports_of cycles)) /\
      unique_total name st <= unique_total name st'.
Proof.
  intros st cycles. apply (monotonicity cycles st).
  repeat constructor; simpl; lia.
Defined.

(** For a single report of a tracked or new repository the running maximum
    is [max(old, period_unique)]. *)
Example high_water_one_report old repo :
  high_water old (reported_uniques (repo_name repo) [repo]) =
  Z.max old (period_unique repo).
Proof.
  unfold high_water, reported_uniques. simpl.
  now rewrite String.eqb_refl.
Qed.

(** C8 (top-N lists).  In the summary, the period list shows, entry by
    entry, the name, [period_clones] and [period_unique] of the first 10
    reports of the batch in stable descending order of [period_clones]; the
    cumulative list shows the key, [total_clones] and [total_unique] of the
    first 10 items of [cumulative_totals] (insertion order) in stable
    descending order of [total_clones].  In both, reports or items of equal
    count keep their original order. *)
Theorem top_repositories clone_data timestamp today cumulative_totals
    daily_records :
  let summary :=
    build_summary clone_data timestamp today cumulative_totals daily_records in
  (exists s,
     stable_descending period_clones clone_data s /\
     Forall2 period_entry_of
       (ps_top_repositories (s_period_stats summary)) (firstn 10 s)) /\
  (exists s,
     stable_descending item_total_clones (Dict.items cumulative_totals) s /\
     Forall2 cumulative_entry_of
       (cs_top_repositories (s_cumulative_stats summary)) (firstn 10 s)).
Proof.
  cbn [build_summary s_period_stats s_cumulative_stats ps_top_repositories
       cs_top_repositories].
  split.
  - exists (sorted_reverse period_clones clone_data).
    split; [apply sorted_reverse_stable|].
    rewrite top_period_of_reports.
    apply Forall2_map_entries, period_entry_shows.
  - exists (sorted_reverse item_total_clones (Dict.items cumulative_totals)).
    split; [apply sorted_reverse_stable|].
    rewrite top_cumulative_of_items.
    apply Forall2_map_entries, cumulative_entry_shows.
Qed.

(** C9 (zero-report cycle).  When the fetch step returns an empty batch,
    [main] leaves both files as they are (so the state that the next run
    loads is the same), ends normally, and after its opening lines prints
    the two warning lines and nothing else. *)
Theorem zero_report_cycle env clock fs timestamp today :
  get_clone_stats env = Ok ([], timestamp, today) ->
  exists out,
    main env clock fs =
      (fs, out ++ [NoCloneDataWarning; CheckErrorsWarning], Ok tt) /\
    forallb preamble out = true /\
    load_historical_data (fst (fst (main env clock fs))) =
      load_historical_data fs.
Proof.
  intros Hfetch. unfold main. rewrite Hfetch.
  exists
    (LoadedHistorical (Dict.len (cumulative_totals (load_historical_data fs))) ::
     match last_run (load_historical_data fs) with
     | Some s => if String.eqb s "" then [] else [LastRun s]
     | None => []
     end).
  split; [reflexivity|]. split; [apply main_preamble|reflexivity].
Qed.

Lemma zero_report_cycle_witness :
  let env :=
    mkEnvironment (Some "token") (Some "octocat")
      (fun _ => Ok [mkRepository "private-repo" (Raise (ApiError "403"))])
      "2024-01-03 06:00:00" "2024-01-03" in
  let fs := mkFiles (Some [CsvHeader fieldnames]) (Some Unreadable) in
  exists out,
    main env (fun _ => "2023-12-04") fs =
      (fs, out ++ [NoCloneDataWarning; CheckErrorsWarning], Ok tt) /\
    forallb preamble out = true /\
    load_historical_data (fst (fst (main env (fun _ => "2023-12-04") fs))) =
      load_historical_data fs.
Proof.
  intros env fs.
  apply (zero_report_cycle env (fun _ => "2023-12-04") fs
           "2024-01-03 06:00:00" "2024-01-03").
  reflexivity.
Defined.

(** C10 (the two [repositories_tracked] counts).  After a run whose listing
    has at least one successful traffic call, the stored summary has
    [period_stats.repositories_tracked] equal to the number of repositories
    whose call succeeded, and [cumulative_stats.repositories_tracked] equal to
    the size of the reconciled [cumulative_totals], whose keys are the
    repositories of the prior state together with those of the batch.  With
    pairwise distinct names in the listing the first count is at most the
    second, and strictly smaller as soon as the prior state tracks a
    repository that the batch lacks. *)
Theorem repositories_tracked env clock fs token username repos :
  GITHUB_TOKEN env = Some token -> token <> "" ->
  GITHUB_USERNAME env = Some username -> username <> "" ->
  get_user_repos env username = Ok repos ->
  existsb fetched repos = true ->
  exists csv summary clone_data,
    fst (fst (main env clock fs)) = mkFiles csv (Some (Stored summary)) /\
    get_clone_stats env = Ok (clone_data, now_timestamp env, now_today env) /\
    calculate_cumulative_totals clock clone_data (load_historical_data fs)
      (now_today env) =
      Ok (s_cumulative_totals summary, s_daily_records summary) /\
    ps_repositories_tracked (s_period_stats summary) =
      Z.of_nat (List.length clone_data) /\
    List.length clone_data = List.length (filter fetched repos) /\
    cs_repositories_tracked (s_cumulative_stats summary) =
      Z.of_nat (Dict.len (s_cumulative_totals summary)) /\
    (forall name,
       Dict.contains name (s_cumulative_totals summary) =
       Dict.contains name (cumulative_totals (load_historical_data fs)) ||
       existsb (String.eqb name) (map repository_name (filter fetched repos))) /\
    (NoDup (map repository_name repos) ->
     ps_repositories_tracked (s_period_stats summary) <=
       cs_repositories_tracked (s_cumulative_stats summary) /\
     forall name,
       Dict.contains name (cumulative_totals (load_historical_data fs)) = true ->
       ~ In name (map repository_name (filter fetched repos)) ->
       ps_repositories_tracked (s_period_stats summary) <
         cs_repositories_tracked (s_cumulative_stats summary)).
Proof.
  intros Ht Hte Hu Hue Hr Hsome.
  pose proof (get_clone_stats_ok env token username repos Ht Hte Hu Hue Hr)
    as Hfetch.
  set (clone_data :=
         fold_left (fetch_repo (now_timestamp env) (now_today env)) repos [])
    in Hfetch.
  assert (Hnames : map repo_name clone_data =
                   map repository_name (filter fetched repos))
    by apply fetch_names.
  assert (Hlen : List.length clone_data = List.length (filter fetched repos)).
  { rewrite <- (length_map repo_name), Hnames. apply length_map. }
  assert (Hne : clone_data <> []).
  { intros E. rewrite E in Hlen. simpl in Hlen.
    apply existsb_exists in Hsome. destruct Hsome as (r & Hr1 & Hr2).
    assert (HI : In r (filter fetched repos)) by (apply filter_In; tauto).
    destruct (filter fetched repos); [contradiction|discriminate]. }
  pose proof (calculate_cumulative_totals_spec clock clone_data
                (load_historical_data fs) (now_today env)) as Hcalc.
  set (prior := (cumulative_totals (load_historical_data fs),
                 daily_records (load_historical_data fs))) in Hcalc.
  pose proof (reconcile_from_contains clock) as Hkeys.
  destruct (reconcile_from clock 0 clone_data prior)
    as [cumulative daily] eqn:Erec.
  assert (Hcontains : forall name,
    Dict.contains name cumulative =
    Dict.contains name (cumulative_totals (load_historical_data fs)) ||
    existsb (String.eqb name) (map repository_name (filter fetched repos))).
  { intros name. specialize (Hkeys name clone_data 0%nat prior).
    rewrite Erec, Hnames in Hkeys. exact Hkeys. }
  clear Hkeys Erec Hnames. clearbody clone_data.
  unfold main. rewrite Hfetch.
  destruct clone_data as [|r0 rest]; [congruence|].
  rewrite Hcalc. unfold update_clone_summary, update_csv.
  do 3 eexists. split; [reflexivity|].
  unfold build_summary.
  cbn [s_period_stats s_cumulative_stats ps_repositories_tracked
       cs_repositories_tracked s_cumulative_totals s_daily_records].
  split; [reflexivity|]. split; [exact Hcalc|].
  split; [reflexivity|]. split; [exact Hlen|]. split; [reflexivity|].
  split; [exact Hcontains|].
  intros Hnd.
  assert (Hnd' : NoDup (map repository_name (filter fetched repos))).
  { clear -Hnd. induction repos as [|r rs IH]; simpl in *; [constructor|].
    inversion Hnd as [|? ? Hnotin Hnd']; subst.
    destruct (fetched r); simpl; [|now apply IH].
    constructor; [|now apply IH].
    intros HI. apply Hnotin. apply in_map_iff in HI.
    destruct HI as (x & Hx & HI). apply filter_In in HI.
    rewrite <- Hx. apply in_map. tauto. }
  assert (Hincl : incl (map repository_name (filter fetched repos))
                    (Dict.keys cumulative)).
  { intros name HI. apply contains_keys. rewrite Hcontains.
    apply orb_true_iff. right. apply existsb_exists.
    exists name. split; [assumption|apply String.eqb_refl]. }
  rewrite Hlen. unfold Dict.len.
  rewrite <- (length_map fst cumulative),
          <- (length_map repository_name (filter fetched repos)).
  split.
  - apply inj_le. now apply NoDup_incl_length.
  - intros name Hprior Habsent. apply inj_lt.
    apply (NoDup_incl_length (l := name :: _)).
    + now constructor.
    + intros x [<-|HI]; [|now apply Hincl].
      apply contains_keys. rewrite Hcontains, Hprior. reflexivity.
Qed.

Lemma repositories_tracked_witness :
  let env :=
    mkEnvironment (Some "token") (Some "octocat")
      (fun _ =>
         Ok [mkRepository "new-repo"
               (Ok (mkClones 4 2 [mkDayData "2024-01-02" 4 2]));
             mkRepository "private-repo" (Raise (ApiError "403"))])
      "2024-01-03 06:00:00" "2024-01-03" in
  let clock := fun _ : nat => "2023-12-04" in
  let repos :=
    [mkRepository "new-repo" (Ok (mkClones 4 2 [mkDayData "2024-01-02" 4 2]));
     mkRepository "private-repo" (Raise (ApiError "403"))] in
  let fs :=
    mkFiles None
      (Some (Stored
         (build_summary [] "2023-12-20 06:00:00" "2023-12-20"
            [("old-repo",
              mkRepoTotals 7 3 "2023-12-01 06:00:00" (Some "2023-12-20 06:00:00"))]
            [("old-repo", [("2023-12-19", mkDayStats 7 3)])]))) in
  exists csv summary clone_data,
    fst (fst (main env clock fs)) = mkFiles csv (Some (Stored summary)) /\
    get_clone_stats env = Ok (clone_data, now_timestamp env, now_today env) /\
    calculate_cumulative_totals clock clone_data (load_historical_data fs)
      (now_today env) =
      Ok (s_cumulative_totals summary, s_daily_records summary) /\
    ps_repositories_tracked (s_period_stats summary) =
      Z.of_nat (List.length clone_data) /\
    List.length clone_data = List.length (filter fetched repos) /\
    cs_repositories_tracked (s_cumulative_stats summary) =
      Z.of_nat (Dict.len (s_cumulative_totals summary)) /\
    (forall name,
       Dict.contains name (s_cumulative_totals summary) =
       Dict.contains name (cumulative_totals (load_historical_data fs)) ||
       existsb (String.eqb name) (map repository_name (filter fetched repos))) /\
    (NoDup (map repository_name repos) ->
     ps_repositories_tracked (s_period_stats summary) <=
       cs_repositories_tracked (s_cumulative_stats summary) /\
     forall name,
       Dict.contains name (cumulative_totals (load_historical_data fs)) = true ->
       ~ In name (map repository_name (filter fetched repos)) ->
       ps_repositories_tracked (s_period_stats summary) <
         cs_repositories_tracked (s_cumulative_stats summary)).
Proof.
  intros env clock repos fs.
  apply (repositories_tracked env clock fs "token" "octocat" repos);
    try reflexivity; discriminate.
Defined.

(** In that run the two counts are 1 and 2. *)
Example repositories_tracked_differ :
  let env :=
    mkEnvironment (Some "token") (Some "octocat")
      (fun _ =>
         Ok [mkRepository "new-repo"
               (Ok (mkClones 4 2 [mkDayData "2024-01-02" 4 2]));
             mkRepository "private-repo" (Raise (ApiError "403"))])
      "2024-01-03 06:00:00" "2024-01-03" in
  let fs :=
    mkFiles None
      (Some (Stored
         (build_summary [] "2023-12-20 06:00:00" "2023-12-20"
            [("old-repo",
              mkRepoTotals 7 3 "2023-12-01 06:00:00" (Some "2023-12-20 06:00:00"))]
            [("old-repo", [("2023-12-19", mkDayStats 7 3)])]))) in
  match clones_summary_json (fst (fst (main env (fun _ => "2023-12-04") fs))) with
  | Some (Stored summary) =>
      ps_repositories_tracked (s_period_stats summary) = 1 /\
      cs_repositories_tracked (s_cumulative_stats summary) = 2
  | _ => False
  end.
Proof. vm_compute. split; reflexivity. Qed.

(* ===================================================================== *)
(** * Further properties of the two scripts *)
(* ===================================================================== *)

(** ** The run of the clone tracker *)

(** X1.  Over the prior states of the model (no summary file, an
    unparsable one, or a summary as [json.dump] wrote it, every entry of
    [cumulative_totals] carrying its fields), [main] raises only what
    [get_clone_stats] raises: on such an exception it leaves both files as
    they are, prints the fatal line and raises the same exception again;
    otherwise it ends normally.  In particular the lookups of the
    reconciliation loop raise no [KeyError], also for a repository that the
    prior state has in only one of its two maps. *)
Theorem main_raises_only_fetch_errors env clock fs :
  match get_clone_stats env with
  | Raise e =>
      exists out,
        main env clock fs = (fs, out ++ [FatalError e], Raise e) /\
        forallb preamble out = true
  | Ok _ => snd (main env clock fs) = Ok tt
  end.
Proof.
  unfold main. destruct (get_clone_stats env) as [[[clone_data ts] today]|e].
  - destruct clone_data as [|r0 rest]; [reflexivity|].
    rewrite calculate_cumulative_totals_spec.
    destruct (reconcile_from _ _ _ _). reflexivity.
  - eexists. split; [reflexivity|apply main_preamble].
Qed.

(** X2.  Without a token or a user name (absent or empty), the run fails
    with [ValueError] whatever the provider would answer, and no file is
    touched. *)
Theorem missing_credentials env clock fs :
  truthy (GITHUB_TOKEN env) = false \/ truthy (GITHUB_USERNAME env) = false ->
  get_clone_stats env =
    Raise (ValueError "GITHUB_TOKEN and GITHUB_USERNAME must be set") /\
  fst (fst (main env clock fs)) = fs /\
  snd (main env clock fs) =
    Raise (ValueError "GITHUB_TOKEN and GITHUB_USERNAME must be set").
Proof.
  intros H.
  assert (E : get_clone_stats env =
              Raise (ValueError "GITHUB_TOKEN and GITHUB_USERNAME must be set")).
  { unfold get_clone_stats. destruct H as [-> | ->]; simpl;
      [reflexivity|now rewrite orb_true_r]. }
  split; [exact E|]. unfold main. rewrite E. split; reflexivity.
Qed.

Lemma missing_credentials_witness :
  let env :=
    mkEnvironment (Some "") (Some "octocat")
      (fun _ => Ok [mkRepository "repo" (Ok (mkClones 1 1 []))])
      "2024-01-03 06:00:00" "2024-01-03" in
  let fs := mkFiles None None in
  get_clone_stats env =
    Raise (ValueError "GITHUB_TOKEN and GITHUB_USERNAME must be set") /\
  fst (fst (main env (fun _ => "2023-12-04") fs)) = fs /\
  snd (main env (fun _ => "2023-12-04") fs) =
    Raise (ValueError "GITHUB_TOKEN and GITHUB_USERNAME must be set").
Proof.
  intros env fs. apply (missing_credentials env (fun _ => "2023-12-04") fs).
  left. reflexivity.
Defined.

Lemma fetch_reports timestamp today repos : forall acc,
  exists batch,
    fold_left (fetch_repo timestamp today) repos acc = acc ++ batch /\
    Forall2 (report_for timestamp today) batch (filter fetched repos).
Proof.
  induction repos as [|repo rest IH]; intros acc; simpl.
  - exists []. split; [now rewrite app_nil_r|constructor].
  - unfold fetch_repo at 2. unfold fetched at 1.
    destruct (get_clones_traffic repo) as [clones|e] eqn:E.
    + destruct (IH (acc ++ [mkRepoData timestamp today (repository_name repo)
                              (clones_count clones) (clones_uniques clones)
                              (daily_clones_of clones)]))
        as (batch & Hb & HF).
      eexists (_ :: batch). split.
      * rewrite Hb, <- app_assoc. reflexivity.
      * constructor; [|exact HF]. exists clones. now split.
    + apply IH.
Qed.

(** X3.  With credentials and a listing, the batch holds one report for
    each repository whose traffic call succeeded, in the order of the
    listing and stamped with the timestamp and date of the run; a failed
    call leaves no trace in it. *)
Theorem fetch_isolates_failures env token username repos :
  GITHUB_TOKEN env = Some token -> token <> "" ->
  GITHUB_USERNAME env = Some username -> username <> "" ->
  get_user_repos env username = Ok repos ->
  exists batch,
    get_clone_stats env = Ok (batch, now_timestamp env, now_today env) /\
    Forall2 (report_for (now_timestamp env) (now_today env)) batch
      (filter fetched repos).
Proof.
  intros Ht Hte Hu Hue Hr.
  rewrite (get_clone_stats_ok env token username repos Ht Hte Hu Hue Hr).
  destruct (fetch_reports (now_timestamp env) (now_today env) repos [])
    as (batch & Hb & HF).
  exists batch. rewrite Hb. split; [reflexivity|exact HF].
Qed.

Lemma fetch_isolates_failures_witness :
  let repos :=
    [mkRepository "private-repo" (Raise (ApiError "403"));
     mkRepository "new-repo" (Ok (mkClones 4 2 [mkDayData "2024-01-02" 4 2]))] in
  let env :=
    mkEnvironment (Some "token") (Some "octocat") (fun _ => Ok repos)
      "2024-01-03 06:00:00" "2024-01-03" in
  exists batch,
    get_clone_stats env = Ok (batch, now_timestamp env, now_today env) /\
    Forall2 (report_for (now_timestamp env) (now_today env)) batch
      (filter fetched repos).
Proof.
  intros repos env.
  apply (fetch_isolates_failures env "token" "octocat" repos);
    try reflexivity; discriminate.
Defined.

Lemma daily_clones_fold day days : forall acc,
  Dict.get day
    (fold_left
       (fun daily_clones day_data =>
          Dict.set (day_timestamp day_data)
            (mkDayStats (day_count day_data) (day_uniques day_data))
            daily_clones)
       days acc) =
  match last_for_day day days with
  | Some d => Some (mkDayStats (day_count d) (day_uniques d))
  | None => Dict.get day acc
  end.
Proof.
  induction days as [|d rest IH]; intros acc; simpl; [reflexivity|].
  rewrite IH. destruct (last_for_day day rest); [reflexivity|].
  rewrite get_set. destruct (String.eqb day (day_timestamp d)); reflexivity.
Qed.

(** X4.  The breakdown built from a traffic answer has each day once, and
    the entry of a day is the last element of the answer with that date:
    a later element overwrites an earlier one, and a day that the answer
    lacks has no entry. *)
Theorem daily_breakdown_last_wins clones day :
  Dict.wf (daily_clones_of clones) /\
  Dict.get day (daily_clones_of clones) =
  match last_for_day day (clones_days clones) with
  | Some d => Some (mkDayStats (day_count d) (day_uniques d))
  | None => None
  end.
Proof.
  split; [apply daily_clones_of_wf|].
  unfold daily_clones_of. rewrite daily_clones_fold.
  destruct (last_for_day day (clones_days clones)); reflexivity.
Qed.

(** ** The CSV log *)

Lemma update_csv_fold batches : forall fs,
  clone_data_csv
    (fold_left (fun fs batch => update_csv batch fs) batches fs) =
  match batches, clone_data_csv fs with
  | [], contents => contents
  | _ :: _, Some old => Some (old ++ List.concat (map csv_rows batches))
  | _ :: _, None =>
      Some (CsvHeader fieldnames :: List.concat (map csv_rows batches))
  end.
Proof.
  induction batches as [|b rest IH]; intros fs; [reflexivity|].
  cbn [fold_left]. rewrite IH. unfold update_csv at 2. cbn [clone_data_csv].
  fold (csv_rows b).
  destruct rest as [|b' rest].
  - cbn [map List.concat]. rewrite app_nil_r.
    unfold update_csv. cbn [clone_data_csv]. fold (csv_rows b).
    destruct (clone_data_csv fs); reflexivity.
  - destruct (clone_data_csv fs) as [old|]; cbn [map List.concat].
    + now rewrite <- app_assoc.
    + reflexivity.
Qed.

(** X5.  The log is append-only and has its header once: after any number
    of runs of [update_csv], an existing file has its old contents followed
    by one row per report in the order of the runs, and a file that did not
    exist starts with the header followed by those rows; the summary file
    is not touched. *)
Theorem csv_log_append_only batches fs :
  let fs' := fold_left (fun fs batch => update_csv batch fs) batches fs in
  clone_data_csv fs' =
    match batches, clone_data_csv fs with
    | [], contents => contents
    | _ :: _, Some old => Some (old ++ List.concat (map csv_rows batches))
    | _ :: _, None =>
        Some (CsvHeader fieldnames :: List.concat (map csv_rows batches))
    end /\
  clones_summary_json fs' = clones_summary_json fs.
Proof.
  split; [apply update_csv_fold|].
  revert fs. induction batches as [|b rest IH]; intros fs; [reflexivity|].
  simpl. now rewrite IH.
Qed.

(** ** The persisted state across runs *)

(** X6.  A summary file that is missing or cannot be parsed does not stop
    the run: the batch is reconciled against the empty state, the log is
    appended, the summary is written, and the run ends normally after the
    lines "loaded 0 repositories" and "completed". *)
Theorem unreadable_state_is_empty env clock fs clone_data timestamp today :
  clones_summary_json fs = None \/ clones_summary_json fs = Some Unreadable ->
  get_clone_stats env = Ok (clone_data, timestamp, today) ->
  clone_data <> [] ->
  exists st,
    calculate_cumulative_totals clock clone_data (mkHistorical [] [] None)
      today = Ok st /\
    main env clock fs =
      (update_clone_summary clone_data timestamp today (fst st) (snd st)
         (update_csv clone_data fs),
       [LoadedHistorical 0; CompletedSuccessfully], Ok tt).
Proof.
  intros Hfile Hfetch Hne.
  assert (Hload : load_historical_data fs = mkHistorical [] [] None).
  { unfold load_historical_data. destruct Hfile as [-> | ->]; reflexivity. }
  pose proof (calculate_cumulative_totals_spec clock clone_data
                (mkHistorical [] [] None) today) as Hcalc.
  eexists. split; [exact Hcalc|].
  unfold main. rewrite Hfetch, Hload.
  destruct clone_data as [|r0 rest]; [congruence|].
  rewrite Hcalc. destruct (reconcile_from _ _ _ _). reflexivity.
Qed.

Lemma unreadable_state_is_empty_witness :
  let env :=
    mkEnvironment (Some "token") (Some "octocat")
      (fun _ =>
         Ok [mkRepository "X"
               (Ok (mkClones 8 5 [mkDayData "2024-01-01" 3 2;
                                  mkDayData "2024-01-02" 5 4]))])
      "2024-01-03 06:00:00" "2024-01-03" in
  let clock := fun _ : nat => "2023-12-04" in
  let fs := mkFiles None (Some Unreadable) in
  let clone_data :=
    [mkRepoData "2024-01-03 06:00:00" "2024-01-03" "X" 8 5
       [("2024-01-01", mkDayStats 3 2); ("2024-01-02", mkDayStats 5 4)]] in
  exists st,
    calculate_cumulative_totals clock clone_data (mkHistorical [] [] None)
      "2024-01-03" = Ok st /\
    main env clock fs =
      (update_clone_summary clone_data "2024-01-03 06:00:00" "2024-01-03"
         (fst st) (snd st) (update_csv clone_data fs),
       [LoadedHistorical 0; CompletedSuccessfully], Ok tt).
Proof.
  intros env clock fs clone_data.
  apply (unreadable_state_is_empty env clock fs clone_data
           "2024-01-03 06:00:00" "2024-01-03").
  - right. reflexivity.
  - reflexivity.
  - discriminate.
Defined.

(** X7.  What a run with a non-empty batch stores is what the next run
    loads: the loaded totals and ledgers are the result of reconciling the
    batch against the state loaded before, and the loaded last-run time is
    the timestamp of the run. *)
Theorem main_persists_cycle env clock fs clone_data timestamp today :
  get_clone_stats env = Ok (clone_data, timestamp, today) ->
  clone_data <> [] ->
  exists st,
    calculate_cumulative_totals clock clone_data (load_historical_data fs)
      today = Ok st /\
    load_historical_data (fst (fst (main env clock fs))) =
      mkHistorical (fst st) (snd st) (Some timestamp) /\
    clone_data_csv (fst (fst (main env clock fs))) =
      clone_data_csv (update_csv clone_data fs).
Proof.
  intros Hfetch Hne.
  pose proof (calculate_cumulative_totals_spec clock clone_data
                (load_historical_data fs) today) as Hcalc.
  eexists. split; [exact Hcalc|].
  unfold main. rewrite Hfetch.
  destruct clone_data as [|r0 rest]; [congruence|].
  rewrite Hcalc. destruct (reconcile_from _ _ _ _). split; reflexivity.
Qed.

Lemma main_persists_cycle_witness :
  let env :=
    mkEnvironment (Some "token") (Some "octocat")
      (fun _ =>
         Ok [mkRepository "X"
               (Ok (mkClones 8 5 [mkDayData "2024-01-01" 3 2;
                                  mkDayData "2024-01-02" 5 4]))])
      "2024-01-03 06:00:00" "2024-01-03" in
  let clock := fun _ : nat => "2023-12-04" in
  let fs := mkFiles None None in
  let clone_data :=
    [mkRepoData "2024-01-03 06:00:00" "2024-01-03" "X" 8 5
       [("2024-01-01", mkDayStats 3 2); ("2024-01-02", mkDayStats 5 4)]] in
  exists st,
    calculate_cumulative_totals clock clone_data (load_historical_data fs)
      "2024-01-03" = Ok st /\
    load_historical_data (fst (fst (main env clock fs))) =
      mkHistorical (fst st) (snd st) (Some "2024-01-03 06:00:00") /\
    clone_data_csv (fst (fst (main env clock fs))) =
      clone_data_csv (update_csv clone_data fs).
Proof.
  intros env clock fs clone_data.
  apply (main_persists_cycle env clock fs clone_data
           "2024-01-03 06:00:00" "2024-01-03").
  - reflexivity.
  - discriminate.
Defined.

(** ** Running the same batch again *)

Lemma add_days_all_present entries : forall ledger total,
  (forall d, In d (Dict.keys entries) -> Dict.contains d ledger = true) ->
  add_days entries ledger total = (ledger, total).
Proof.
  induction entries as [|[d s] rest IH]; intros ledger total H; simpl;
    [reflexivity|].
  rewrite (H d) by (now left). apply IH. intros d' Hd'. apply H. now right.
Qed.

Lemma reconcile_from_keeps_day name day clock clone_data i st :
  (forall j, str_ge day (clock j) = true) ->
  Dict.contains day (ledger_of name st) = true ->
  Dict.contains day (ledger_of name (reconcile_from clock i clone_data st)) =
  true.
Proof.
  intros Hclock Hc. unfold Dict.contains in Hc.
  destruct (Dict.get day (ledger_of name st)) as [v|] eqn:E; [|discriminate].
  destruct (reconcile_from_present name day v clock clone_data i st Hclock E)
    as [_ H].
  now apply contains_of_get in H.
Qed.

Lemma reconcile_from_covers clock clone_data : forall i st repo day,
  In repo clone_data -> In day (Dict.keys (daily_breakdown repo)) ->
  (forall j, str_ge day (clock j) = true) ->
  Dict.contains day
    (ledger_of (repo_name repo) (reconcile_from clock i clone_data st)) = true.
Proof.
  induction clone_data as [|r0 rest IH]; intros i st repo day HI Hd Hclock;
    [contradiction|].
  simpl. destruct HI as [->|HI].
  - apply reconcile_from_keeps_day; [assumption|].
    rewrite repo_step_contains_day by apply Hclock.
    rewrite String.eqb_refl. apply contains_keys in Hd. rewrite Hd.
    apply orb_true_r.
  - now apply IH.
Qed.

Lemma reconcile_from_no_fresh clock clone_data : forall i st,
  (forall repo day, In repo clone_data ->
     In day (Dict.keys (daily_breakdown repo)) ->
     Dict.contains day (ledger_of (repo_name repo) st) = true /\
     forall j, str_ge day (clock j) = true) ->
  forall name,
    clones_total name (reconcile_from clock i clone_data st) =
    clones_total name st.
Proof.
  induction clone_data as [|r0 rest IH]; intros i st H name; [reflexivity|].
  simpl. rewrite IH.
  - destruct (string_dec name (repo_name r0)) as [->|Hn].
    + rewrite repo_step_clones_total, add_days_all_present; [reflexivity|].
      intros d Hd. apply (H r0 d); [now left|assumption].
    + now apply clones_total_step_other.
  - intros repo day HI Hd. destruct (H repo day (or_intror HI) Hd) as [Hc Hcl].
    split; [|assumption].
    rewrite repo_step_contains_day by apply Hcl. rewrite Hc. reflexivity.
Qed.

Lemma high_water_bounds values : forall old,
  Forall (fun v => v <= high_water old values) values.
Proof.
  unfold high_water.
  induction values as [|v rest IH]; intros old; simpl; constructor.
  - pose proof (high_water_ge rest (Z.max old v)) as H.
    unfold high_water in H. lia.
  - apply IH.
Qed.

Lemma high_water_fixed values : forall old,
  Forall (fun v => v <= old) values -> high_water old values = old.
Proof.
  unfold high_water.
  induction values as [|v rest IH]; intros old H; simpl; [reflexivity|].
  inversion H; subst. rewrite Z.max_l by assumption. now apply IH.
Qed.

(** X8.  Running a batch a second time adds nothing: when every day of the
    batch is on or after the cutoff dates of both runs, the second run
    leaves [total_clones] and [total_unique] of every repository as the
    first run left them. *)
Theorem rerun_adds_nothing clock1 clock2 clone_data historical_data
    today1 today2 :
  days_retained clock1 clone_data ->
  days_retained clock2 clone_data ->
  exists st1 st2,
    calculate_cumulative_totals clock1 clone_data historical_data today1 =
      Ok st1 /\
    calculate_cumulative_totals clock2 clone_data
      (mkHistorical (fst st1) (snd st1) (last_run historical_data)) today2 =
      Ok st2 /\
    forall name,
      clones_total name st2 = clones_total name st1 /\
      unique_total name st2 = unique_total name st1.
Proof.
  intros H1 H2.
  set (prior := (cumulative_totals historical_data,
                 daily_records historical_data)).
  set (st1 := reconcile_from clock1 0 clone_data prior).
  exists st1, (reconcile_from clock2 0 clone_data st1).
  split; [apply calculate_cumulative_totals_spec|].
  split.
  { rewrite calculate_cumulative_totals_spec. cbn [cumulative_totals daily_records].
    now destruct st1. }
  intros name. split.
  - apply reconcile_from_no_fresh. intros repo day HI Hd. split.
    + subst st1. apply reconcile_from_covers; try assumption.
      intros j. now apply (H1 repo day j).
    + intros j. now apply (H2 repo day j).
  - rewrite reconcile_from_unique. subst st1. rewrite reconcile_from_unique.
    apply high_water_fixed, high_water_bounds.
Qed.

Lemma rerun_adds_nothing_witness :
  let clock := fun _ : nat => "2023-12-04" in
  let clone_data :=
    [mkRepoData "2024-01-03 06:00:00" "2024-01-03" "X" 8 5
       [("2024-01-01", mkDayStats 3 2); ("2024-01-02", mkDayStats 5 4)]] in
  let historical_data := mkHistorical [] [] None in
  exists st1 st2,
    calculate_cumulative_totals clock clone_data historical_data "2024-01-03" =
      Ok st1 /\
    calculate_cumulative_totals clock clone_data
      (mkHistorical (fst st1) (snd st1) (last_run historical_data))
      "2024-01-03" = Ok st2 /\
    forall name,
      clones_total name st2 = clones_total name st1 /\
      unique_total name st2 = unique_total name st1.
Proof.
  intros clock clone_data historical_data.
  apply (rerun_adds_nothing clock clock clone_data historical_data
           "2024-01-03" "2024-01-03");
    intros repo day i [<-|[]] [<-|[<-|[]]]; reflexivity.
Defined.

(** ** When a repository was first and last seen *)

Lemma reconcile_from_app clock l l' : forall i st,
  reconcile_from clock i (l ++ l') st =
  reconcile_from clock (i + List.length l)%nat l' (reconcile_from clock i l st).
Proof.
  induction l as [|r rest IH]; intros i st; simpl.
  - now rewrite Nat.add_0_r.
  - rewrite IH. now replace (S i + List.length rest)%nat
                  with (i + S (List.length rest))%nat by lia.
Qed.

Lemma reconcile_from_first_tracked clock name clone_data : forall i st,
  option_map first_tracked
    (Dict.get name (fst (reconcile_from clock i clone_data st))) =
  match Dict.get name (fst st) with
  | Some t => Some (first_tracked t)
  | None => option_map timestamp (first_report name clone_data)
  end.
Proof.
  unfold first_report.
  induction clone_data as [|r rest IH]; intros i st; simpl.
  - destruct (Dict.get name (fst st)); reflexivity.
  - rewrite IH. destruct (String.eqb_spec (repo_name r) name) as [<-|Hn].
    + unfold repo_step. simpl. rewrite get_set_same. simpl.
      destruct (Dict.get (repo_name r) (fst st)); reflexivity.
    + rewrite repo_step_fst_other by congruence. reflexivity.
Qed.

Lemma reconcile_from_last_updated clock name clone_data : forall i st,
  match last_report name clone_data with
  | Some r =>
      option_map last_updated
        (Dict.get name (fst (reconcile_from clock i clone_data st))) =
      Some (Some (timestamp r))
  | None =>
      Dict.get name (fst (reconcile_from clock i clone_data st)) =
      Dict.get name (fst st)
  end.
Proof.
  unfold last_report.
  induction clone_data as [|r rest IH] using rev_ind; intros i st;
    [reflexivity|].
  rewrite rev_app_distr, reconcile_from_app.
  cbn [rev app find reconcile_from].
  destruct (String.eqb_spec (repo_name r) name) as [<-|Hn].
  - unfold repo_step. simpl. now rewrite get_set_same.
  - specialize (IH i st).
    destruct (find _ (rev rest));
      rewrite repo_step_fst_other by congruence; exact IH.
Qed.

(** X9.  [first_tracked] is written once: after a cycle it is the value
    the prior state had, or for a repository that was not tracked the
    timestamp of its first report.  [last_updated] is the timestamp of the
    last report of the repository in the batch, and the entry of a
    repository without a report is the prior one. *)
Theorem tracking_timestamps clock clone_data historical_data today name :
  exists st',
    calculate_cumulative_totals clock clone_data historical_data today =
      Ok st' /\
    option_map first_tracked (Dict.get name (fst st')) =
      match Dict.get name (cumulative_totals historical_data) with
      | Some t => Some (first_tracked t)
      | None => option_map timestamp (first_report name clone_data)
      end /\
    match last_report name clone_data with
    | Some r =>
        option_map last_updated (Dict.get name (fst st')) =
        Some (Some (timestamp r))
    | None =>
        Dict.get name (fst st') =
        Dict.get name (cumulative_totals historical_data)
    end.
Proof.
  rewrite calculate_cumulative_totals_spec. eexists. split; [reflexivity|].
  split.
  - apply reconcile_from_first_tracked.
  - apply (reconcile_from_last_updated clock name clone_data 0
             (cumulative_totals historical_data,
              daily_records historical_data)).
Qed.

(** ** Invariants of the persisted state *)

Lemma reconcile_from_contains_ledger clock name clone_data : forall i st,
  Dict.contains name (snd (reconcile_from clock i clone_data st)) =
  Dict.contains name (snd st) ||
  existsb (String.eqb name) (map repo_name clone_data).
Proof.
  induction clone_data as [|repo rest IH]; intros i st; simpl.
  - now rewrite orb_false_r.
  - rewrite IH. unfold repo_step. simpl. rewrite contains_set.
    destruct (Dict.contains name (snd st)), (String.eqb name (repo_name repo));
      reflexivity.
Qed.

(** X11.  Totals and ledgers stay in step: after a cycle every reported
    repository has both an entry of totals and a ledger, no entry of either
    map is deleted, and when the prior state had a ledger exactly for the
    repositories it had totals for, so has the new state. *)
Theorem totals_and_ledgers_in_step clock clone_data historical_data today :
  exists st',
    calculate_cumulative_totals clock clone_data historical_data today =
      Ok st' /\
    (forall name,
       Dict.contains name (fst st') =
       Dict.contains name (cumulative_totals historical_data) ||
       existsb (String.eqb name) (map repo_name clone_data)) /\
    (forall name,
       Dict.contains name (snd st') =
       Dict.contains name (daily_records historical_data) ||
       existsb (String.eqb name) (map repo_name clone_data)) /\
    (in_step (cumulative_totals historical_data,
              daily_records historical_data) -> in_step st').
Proof.
  rewrite calculate_cumulative_totals_spec. eexists. split; [reflexivity|].
  split; [|split].
  - intros name. apply reconcile_from_contains.
  - intros name. apply reconcile_from_contains_ledger.
  - intros H name.
    rewrite reconcile_from_contains, reconcile_from_contains_ledger.
    now rewrite (H name).
Qed.

(** ** The figures of the summary *)

Lemma sorted_app_le {A} (key : A -> Z) (l1 l2 : list A) :
  StronglySorted (fun a b => key b <= key a) (l1 ++ l2) ->
  forall x y, In x l1 -> In y l2 -> key y <= key x.
Proof.
  induction l1 as [|a l1 IH]; simpl; intros H x y Hx Hy; [contradiction|].
  inversion H as [|? ? Hs Hall]; subst.
  destruct Hx as [->|Hx]; [|now apply IH].
  rewrite Forall_forall in Hall. apply Hall, in_or_app. now right.
Qed.

Lemma top_dominates {A} (key : A -> Z) (n : nat) (l : list A) :
  let top := firstn n (sorted_reverse key l) in
  exists rest,
    Permutation (top ++ rest) l /\
    List.length top = Nat.min n (List.length l) /\
    forall x y, In x top -> In y rest -> key y <= key x.
Proof.
  destruct (sorted_reverse_stable key l) as (HP & HS & _).
  exists (skipn n (sorted_reverse key l)). split; [|split].
  - now rewrite firstn_skipn.
  - rewrite length_firstn. now rewrite (Permutation_length HP).
  - apply sorted_app_le. now rewrite firstn_skipn.
Qed.

(** X12.  The top lists show the largest: the period list shows, entry by
    entry, [min(10, n)] reports of the batch, and every report that is left
    out has a [period_clones] that is at most that of every report shown;
    the same holds for the cumulative list, the items of [cumulative_totals]
    and [total_clones]. *)
Theorem top_lists_hold_the_largest clone_data timestamp today
    cumulative_totals daily_records :
  let summary :=
    build_summary clone_data timestamp today cumulative_totals daily_records in
  (exists shown rest,
     Permutation (shown ++ rest) clone_data /\
     Forall2 period_entry_of
       (ps_top_repositories (s_period_stats summary)) shown /\
     List.length shown = Nat.min 10 (List.length clone_data) /\
     forall x y,
       In x shown -> In y rest -> period_clones y <= period_clones x) /\
  (exists shown rest,
     Permutation (shown ++ rest) (Dict.items cumulative_totals) /\
     Forall2 cumulative_entry_of
       (cs_top_repositories (s_cumulative_stats summary)) shown /\
     List.length shown = Nat.min 10 (Dict.len cumulative_totals) /\
     forall x y,
       In x shown -> In y rest ->
       total_clones (snd y) <= total_clones (snd x)).
Proof.
  cbn [build_summary s_period_stats s_cumulative_stats ps_top_repositories
       cs_top_repositories].
  split.
  - destruct (top_dominates period_clones 10 clone_data)
      as (rest & HP & HL & HD).
    exists (firstn 10 (sorted_reverse period_clones clone_data)), rest.
    rewrite top_period_of_reports.
    repeat split; try assumption.
    apply Forall2_map_entries, period_entry_shows.
  - destruct (top_dominates item_total_clones 10 (Dict.items cumulative_totals))
      as (rest & HP & HL & HD).
    exists (firstn 10 (sorted_reverse item_total_clones
                         (Dict.items cumulative_totals))), rest.
    rewrite top_cumulative_of_items.
    repeat split; try assumption.
    apply Forall2_map_entries, cumulative_entry_shows.
Qed.

Lemma count_positive_le_sum {A} (f : A -> Z) (l : list A) :
  Forall (fun a => 0 <= f a) l ->
  Z.of_nat (List.length (filter (fun a => 0 <? f a) l)) <= sum (map f l).
Proof.
  induction 1 as [|a l Ha _ IH]; simpl; [reflexivity|].
  rewrite sum_cons. destruct (Z.ltb_spec 0 (f a)); simpl List.length; lia.
Qed.

Lemma count_filter_le {A} (p : A -> bool) (l : list A) :
  Z.of_nat (List.length (filter p l)) <= Z.of_nat (List.length l).
Proof. apply inj_le, filter_length_le. Qed.

(** X13.  The counters of the summary are consistent: in both blocks the
    number of repositories with clones is at most the number tracked, and
    when no count is negative it is at most the total of clones. *)
Theorem summary_counters_consistent clone_data timestamp today
    cumulative_totals daily_records :
  Forall (fun r => 0 <= period_clones r) clone_data ->
  Forall (fun t => 0 <= total_clones t) (Dict.values cumulative_totals) ->
  let summary :=
    build_summary clone_data timestamp today cumulative_totals daily_records in
  let ps := s_period_stats summary in
  let cs := s_cumulative_stats summary in
  ps_repositories_with_clones ps <= ps_repositories_tracked ps /\
  ps_repositories_with_clones ps <= ps_total_clones ps /\
  cs_repositories_with_clones cs <= cs_repositories_tracked cs /\
  cs_repositories_with_clones cs <= cs_total_clones cs.
Proof.
  intros Hp Hc. cbn -[sum Z.of_nat Z.le]. repeat split.
  - apply count_filter_le.
  - now apply count_positive_le_sum.
  - unfold Dict.len. rewrite <- (length_map snd cumulative_totals).
    apply (count_filter_le _ (Dict.values cumulative_totals)).
  - now apply count_positive_le_sum.
Qed.

Lemma summary_counters_consistent_witness :
  let clone_data :=
    [mkRepoData "2024-01-03 06:00:00" "2024-01-03" "A" 8 5 [];
     mkRepoData "2024-01-03 06:00:00" "2024-01-03" "B" 0 0 []] in
  let cumulative_totals :=
    [("A", mkRepoTotals 8 5 "2024-01-03 06:00:00" (Some "2024-01-03 06:00:00"));
     ("B", mkRepoTotals 0 0 "2024-01-03 06:00:00" (Some "2024-01-03 06:00:00"))] in
  let summary :=
    build_summary clone_data "2024-01-03 06:00:00" "2024-01-03"
      cumulative_totals [] in
  let ps := s_period_stats summary in
  let cs := s_cumulative_stats summary in
  ps_repositories_with_clones ps <= ps_repositories_tracked ps /\
  ps_repositories_with_clones ps <= ps_total_clones ps /\
  cs_repositories_with_clones cs <= cs_repositories_tracked cs /\
  cs_repositories_with_clones cs <= cs_total_clones cs.
Proof.
  intros clone_data cumulative_totals.
  apply (summary_counters_consistent clone_data "2024-01-03 06:00:00"
           "2024-01-03" cumulative_totals []);
    repeat constructor; simpl; lia.
Defined.

Lemma sum_values_set (f : RepoTotals -> Z) k v (d : dict RepoTotals) :
  sum (map f (Dict.values (Dict.set k v d))) =
  sum (map f (Dict.values d)) -
  match Dict.get k d with Some old => f old | None => 0 end + f v.
Proof.
  unfold Dict.values. induction d as [|[k0 v0] d IH]; simpl.
  - rewrite sum_cons. unfold sum. simpl. lia.
  - destruct (String.eqb k k0); simpl; rewrite !sum_cons; [lia|].
    rewrite IH. lia.
Qed.

Lemma repo_step_overall c repo st :
  overall_total_clones (fst (repo_step c repo st)) =
  overall_total_clones (fst st) +
  (clones_total (repo_name repo) (repo_step c repo st) -
   clones_total (repo_name repo) st) /\
  overall_total_unique (fst (repo_step c repo st)) =
  overall_total_unique (fst st) +
  (unique_total (repo_name repo) (repo_step c repo st) -
   unique_total (repo_name repo) st).
Proof.
  unfold overall_total_clones, overall_total_unique, clones_total, unique_total.
  unfold repo_step. cbn [fst snd]. rewrite !sum_values_set, get_set_same.
  cbn [total_clones total_unique]. split; lia.
Qed.

Lemma reconcile_from_overall clock clone_data : forall i st,
  nonneg_counts clone_data ->
  overall_total_clones (fst st) <=
    overall_total_clones (fst (reconcile_from clock i clone_data st)) /\
  overall_total_unique (fst st) <=
    overall_total_unique (fst (reconcile_from clock i clone_data st)).
Proof.
  unfold nonneg_counts.
  induction clone_data as [|repo rest IH]; intros i st Hpos; simpl; [lia|].
  inversion Hpos as [|? ? Hrepo Hrest]; subst.
  destruct (IH (S i) (repo_step (clock i) repo st) Hrest) as [H1 H2].
  destruct (repo_step_overall (clock i) repo st) as [E1 E2].
  destruct (repo_step_mono (clock i) repo st (repo_name repo) Hrepo).
  lia.
Qed.

(** X14.  The all-time figures never go down: when no daily count of the
    batch is negative, the all-time totals of clones and of uniques in the
    summary written after the cycle are at least those computed from the
    prior state. *)
Theorem overall_totals_never_decrease clock clone_data historical_data
    timestamp today :
  nonneg_counts clone_data ->
  exists st',
    calculate_cumulative_totals clock clone_data historical_data today =
      Ok st' /\
    let summary :=
      build_summary clone_data timestamp today (fst st') (snd st') in
    overall_total_clones (cumulative_totals historical_data) <=
      cs_total_clones (s_cumulative_stats summary) /\
    overall_total_unique (cumulative_totals historical_data) <=
      cs_total_unique_clones (s_cumulative_stats summary).
Proof.
  intros Hpos. rewrite calculate_cumulative_totals_spec.
  eexists. split; [reflexivity|].
  apply (reconcile_from_overall clock clone_data 0
           (cumulative_totals historical_data, daily_records historical_data)
           Hpos).
Qed.

Lemma overall_totals_never_decrease_witness :
  let historical_data :=
    mkHistorical
      [("A", mkRepoTotals 7 3 "2023-11-01 06:00:00" (Some "2023-12-31 06:00:00"))]
      [("A", [("2023-12-30", mkDayStats 7 3)])]
      (Some "2023-12-31 06:00:00") in
  let clone_data :=
    [mkRepoData "2024-01-03 06:00:00" "2024-01-03" "A" 9 2
       [("2023-12-30", mkDayStats 7 3); ("2024-01-02", mkDayStats 2 1)];
     mkRepoData "2024-01-03 06:00:00" "2024-01-03" "B" 1 1
       [("2024-01-02", mkDayStats 1 1)]] in
  exists st',
    calculate_cumulative_totals (fun _ => "2023-12-04") clone_data
      historical_data "2024-01-03" = Ok st' /\
    let summary :=
      build_summary clone_data "2024-01-03 06:00:00" "2024-01-03"
        (fst st') (snd st') in
    overall_total_clones (cumulative_totals historical_data) <=
      cs_total_clones (s_cumulative_stats summary) /\
    overall_total_unique (cumulative_totals historical_data) <=
      cs_total_unique_clones (s_cumulative_stats summary).
Proof.
  intros historical_data clone_data.
  apply (overall_totals_never_decrease (fun _ => "2023-12-04") clone_data
           historical_data "2024-01-03 06:00:00" "2024-01-03").
  repeat constructor; simpl; lia.
Defined.

(** ** The star tracker *)

Lemma stars_fetch_fold timestamp repos : forall star_data total_stars,
  exists batch,
    fold_left (Stars.fetch_repo timestamp) repos (star_data, total_stars) =
    (star_data ++ batch,
     total_stars + sum (map Stars.stars batch) +
     sum (map (Stars.dropped_stars timestamp) repos)) /\
    Forall (fun r => Stars.timestamp r = timestamp) batch.
Proof.
  induction repos as [|repo rest IH]; intros star_data total_stars; simpl.
  - exists []. rewrite app_nil_r. unfold sum. simpl.
    split; [f_equal; lia|constructor].
  - rewrite sum_cons. unfold Stars.dropped_stars at 1.
    destruct (Stars.stargazers_count repo) as [stars|e]; simpl.
    + destruct (Stars.repo_data_of timestamp repo stars) as [repo_data|e]
        eqn:E.
      * destruct (IH (star_data ++ [repo_data]) (total_stars + stars))
          as (batch & Hb & Hts).
        exists (repo_data :: batch). rewrite Hb, <- app_assoc. simpl.
        assert (Hstars : Stars.stars repo_data = stars /\
                         Stars.timestamp repo_data = timestamp).
        { unfold Stars.repo_data_of in E.
          destruct (Stars.forks_count repo), (Stars.watchers_count repo),
                   (Stars.private repo), (Stars.language repo);
            simpl in E; try discriminate.
          injection E as <-. split; reflexivity. }
        destruct Hstars as [Hs Ht]. rewrite sum_cons, Hs.
        split; [f_equal; lia|now constructor].
      * destruct (IH star_data (total_stars + stars)) as (batch & Hb & Hts).
        exists batch. rewrite Hb. split; [f_equal; lia|assumption].
    + destruct (IH star_data total_stars) as (batch & Hb & Hts).
      exists batch. rewrite Hb. split; [f_equal; lia|assumption].
Qed.

(** X15.  The running total of stars counts every repository whose star
    count could be read, also one that is then left out of [star_data]
    because a later attribute could not be read: the total is the sum of
    the stars in [star_data] plus the stars of the repositories dropped in
    that way.  When no repository is dropped in that way the total is the
    sum of the stars in [star_data]. *)
Theorem star_total_accounting env token username repos :
  Stars.ACCESS_TOKEN env = Some token -> token <> "" ->
  Stars.GITHUB_USERNAME env = Some username -> username <> "" ->
  Stars.get_user_repos env username = Ok repos ->
  exists star_data total_stars,
    Stars.get_star_stats env =
      Ok (star_data, total_stars, Stars.now_timestamp env) /\
    total_stars =
      sum (map Stars.stars star_data) +
      sum (map (Stars.dropped_stars (Stars.now_timestamp env)) repos) /\
    Forall (fun r => Stars.timestamp r = Stars.now_timestamp env) star_data /\
    (Forall (fun repo => Stars.dropped_stars (Stars.now_timestamp env) repo = 0)
       repos ->
     total_stars = sum (map Stars.stars star_data)).
Proof.
  intros Ht Hte Hu Hue Hr. unfold Stars.get_star_stats, truthy.
  rewrite Ht, Hu. apply String.eqb_neq in Hte, Hue. rewrite Hte, Hue. simpl.
  rewrite Hr. simpl.
  destruct (stars_fetch_fold (Stars.now_timestamp env) repos [] 0)
    as (batch & Hb & Hts).
  rewrite Hb. simpl. exists batch. eexists. split; [reflexivity|].
  split; [lia|]. split; [assumption|].
  intros Hnone.
  assert (E : sum (map (Stars.dropped_stars (Stars.now_timestamp env)) repos) = 0).
  { clear -Hnone. induction Hnone as [|r l Hr _ IH]; simpl; [reflexivity|].
    rewrite sum_cons, Hr, IH. reflexivity. }
  lia.
Qed.

Lemma star_total_accounting_witness :
  let repos :=
    [Stars.mkRepository "full" (Ok 5) (Ok 1) (Ok 5) (Ok false) (Ok (Some "Coq"));
     Stars.mkRepository "partial" (Ok 3) (Raise (ApiError "403")) (Ok 3)
       (Ok true) (Ok None)] in
  let env :=
    Stars.mkEnvironment (Some "token") (Some "octocat") (fun _ => Ok repos)
      "2024-01-03 06:00:00" in
  exists star_data total_stars,
    Stars.get_star_stats env =
      Ok (star_data, total_stars, Stars.now_timestamp env) /\
    total_stars =
      sum (map Stars.stars star_data) +
      sum (map (Stars.dropped_stars (Stars.now_timestamp env)) repos) /\
    Forall (fun r => Stars.timestamp r = Stars.now_timestamp env) star_data /\
    (Forall (fun repo => Stars.dropped_stars (Stars.now_timestamp env) repo = 0)
       repos ->
     total_stars = sum (map Stars.stars star_data)).
Proof.
  intros repos env.
  apply (star_total_accounting env "token" "octocat" repos);
    try reflexivity; discriminate.
Defined.

(** In that run the total is 8 while the only row has 5 stars. *)
Example star_total_exceeds_rows :
  Stars.get_star_stats
    (Stars.mkEnvironment (Some "token") (Some "octocat")
       (fun _ =>
          Ok [Stars.mkRepository "full" (Ok 5) (Ok 1) (Ok 5) (Ok false)
                (Ok (Some "Coq"));
              Stars.mkRepository "partial" (Ok 3) (Raise (ApiError "403"))
                (Ok 3) (Ok true) (Ok None)])
       "2024-01-03 06:00:00") =
  Ok ([Stars.mkStarData "2024-01-03 06:00:00" "full" 5 1 5 false "Coq"], 8,
      "2024-01-03 06:00:00").
Proof. reflexivity. Qed.

Lemma filter_partition_length {A} (p : A -> bool) (l : list A) :
  (List.length (filter p l) + List.length (filter (fun a => negb (p a)) l))%nat =
  List.length l.
Proof.
  induction l as [|a l IH]; simpl; [reflexivity|].
  destruct (p a); simpl; lia.
Qed.

Lemma star_top_of_rows star_data :
  firstn 10 (sorted_reverse Stars.top_stars (map Stars.top_entry star_data)) =
  map Stars.top_entry (firstn 10 (sorted_reverse Stars.stars star_data)).
Proof.
  rewrite (sorted_reverse_map Stars.top_entry Stars.stars Stars.top_stars)
    by reflexivity.
  apply firstn_map.
Qed.

Lemma star_entry_shows r : star_entry_of (Stars.top_entry r) r.
Proof. repeat split. Qed.

(** X16.  The figures of the star summary: public and private
    repositories add up to the number of repositories, the starred ones are
    at most that number, and the top list shows, entry by entry, the name,
    stars and language of the first 10 rows of [star_data] in stable
    descending order of stars, so it shows [min(10, n)] rows and no row left
    out has more stars than a row shown. *)
Theorem star_summary_figures total_stars timestamp star_data :
  let summary := Stars.build_summary total_stars timestamp star_data in
  Stars.total_repositories summary =
    Stars.public_repositories summary +
    Z.of_nat (List.length (filter Stars.is_private star_data)) /\
  Stars.starred_repositories summary <= Stars.total_repositories summary /\
  (exists s,
     stable_descending Stars.stars star_data s /\
     Forall2 star_entry_of (Stars.top_repositories summary) (firstn 10 s)) /\
  (exists shown rest,
     Permutation (shown ++ rest) star_data /\
     Forall2 star_entry_of (Stars.top_repositories summary) shown /\
     List.length shown = Nat.min 10 (List.length star_data) /\
     forall x y,
       In x shown -> In y rest -> Stars.stars y <= Stars.stars x).
Proof.
  cbn [Stars.build_summary Stars.total_repositories Stars.public_repositories
       Stars.starred_repositories Stars.top_repositories].
  rewrite star_top_of_rows.
  split; [|split; [|split]].
  - rewrite <- Nat2Z.inj_add. f_equal.
    rewrite <- (filter_partition_length Stars.is_private star_data). lia.
  - apply count_filter_le.
  - exists (sorted_reverse Stars.stars star_data).
    split; [apply sorted_reverse_stable|].
    apply Forall2_map_entries, star_entry_shows.
  - destruct (top_dominates Stars.stars 10 star_data) as (rest & HP & HL & HD).
    exists (firstn 10 (sorted_reverse Stars.stars star_data)), rest.
    repeat split; try assumption.
    apply Forall2_map_entries, star_entry_shows.
Qed.

(** X17.  The star run writes only when it has data: on an exception of
    the fetch step it leaves both files as they are and raises it again, on
    an empty result it leaves them as they are and ends normally, and
    otherwise it appends one row per element to the log, with the header
    first if the log is new, and replaces the summary. *)
Theorem star_main_outcomes env fs :
  match Stars.get_star_stats env with
  | Raise e => Stars.main env fs = (fs, [Stars.Error e], Raise e)
  | Ok ([], _, _) => Stars.main env fs = (fs, [Stars.NoStarDataWarning], Ok tt)
  | Ok (star_data, total_stars, timestamp) =>
      Stars.main env fs =
      (Stars.mkFiles
         (Some match Stars.star_data_csv fs with
               | Some old => old ++ map Stars.CsvRecord star_data
               | None =>
                   Stars.CsvHeader Stars.fieldnames ::
                   map Stars.CsvRecord star_data
               end)
         (Some (Stars.build_summary total_stars timestamp star_data)),
       [Stars.CompletedSuccessfully], Ok tt)
  end.
Proof.
  unfold Stars.main.
  destruct (Stars.get_star_stats env) as [[[star_data total] ts]|e];
    [|reflexivity].
  destruct star_data as [|r rest]; reflexivity.
Qed.

(** ** What a cycle adds *)

(** X18.  In a cycle over reports with pairwise distinct names, the
    [total_clones] of a reported repository grows by exactly the counts of
    the days of its report that its prior ledger does not hold; days that
    the ledger holds add nothing, whatever count the report gives them. *)
Theorem cycle_adds_fresh_days clock clone_data historical_data today repo :
  NoDup (map repo_name clone_data) ->
  In repo clone_data ->
  Dict.wf (daily_breakdown repo) ->
  let prior :=
    (cumulative_totals historical_data, daily_records historical_data) in
  exists st',
    calculate_cumulative_totals clock clone_data historical_data today =
      Ok st' /\
    clones_total (repo_name repo) st' =
    clones_total (repo_name repo) prior +
    sum (fresh_counts (daily_breakdown repo) (ledger_of (repo_name repo) prior)).
Proof.
  intros Hnd HI Hwf prior. rewrite calculate_cumulative_totals_spec. fold prior.
  eexists. split; [reflexivity|].
  apply In_nth_error in HI. destruct HI as [k Hk].
  destruct (reconcile_from_view clock clone_data 0 prior k repo Hnd Hk)
    as [H1 _].
  unfold clones_total at 1. rewrite H1.
  change (clones_total (repo_name repo) (repo_step (clock (0 + k)%nat) repo prior) =
          clones_total (repo_name repo) prior +
          sum (fresh_counts (daily_breakdown repo)
                 (ledger_of (repo_name repo) prior))).
  rewrite repo_step_clones_total. now apply add_days_total.
Qed.

Lemma cycle_adds_fresh_days_witness :
  let historical_data :=
    mkHistorical
      [("X", mkRepoTotals 8 5 "2024-01-02 06:00:00" (Some "2024-01-02 06:00:00"))]
      [("X", [("2024-01-01", mkDayStats 3 2); ("2024-01-02", mkDayStats 5 4)])]
      (Some "2024-01-02 06:00:00") in
  let repo :=
    mkRepoData "2024-01-03 06:00:00" "2024-01-03" "X" 100 6
      [("2024-01-02", mkDayStats 99 99); ("2024-01-03", mkDayStats 1 1)] in
  let prior :=
    (cumulative_totals historical_data, daily_records historical_data) in
  exists st',
    calculate_cumulative_totals (fun _ => "2023-12-04") [repo] historical_data
      "2024-01-03" = Ok st' /\
    clones_total (repo_name repo) st' =
    clones_total (repo_name repo) prior +
    sum (fresh_counts (daily_breakdown repo) (ledger_of (repo_name repo) prior)).
Proof.
  intros historical_data repo prior.
  apply (cycle_adds_fresh_days (fun _ => "2023-12-04") [repo] historical_data
           "2024-01-03" repo).
  - repeat constructor; simpl; tauto.
  - left. reflexivity.
  - repeat constructor; simpl; intuition discriminate.
Defined.
